(** * A shallow embedding of the business / review REST service (main.py)

    The service is a Flask application over a MySQL (InnoDB) store.  The
    handlers of main.py are embedded one by one as functions from a request
    and a store to a result and a store.

    What lies outside main.py is modelled as follows.

    - The store holds the two tables that [create_tables] declares.  A
      table is a finite map from its AUTO_INCREMENT primary key to the
      other columns of the row.  A statement that writes first brings each
      parameter to the type of its column (INT: 32 bits; VARCHAR(n) and
      CHAR(n): n characters), as the server does in its default, strict
      sql_mode: a value that does not fit is an error, except for spaces
      at the end of a text, which are cut.  It then evaluates the CHECK
      constraint on the row, and the row goes to the indexes
      (uq_user_business, fk_reviews_business with ON DELETE CASCADE).  A
      statement that fails changes nothing, the counter of AUTO_INCREMENT
      included.
    - An error of the server reaches the handlers in the class the driver
      (PyMySQL) has for its number: IntegrityError for a duplicate key
      (1062) and for a missing referenced row (1452); DataError for a
      value out of range (1264) and for a text too long (1406); and
      OperationalError for a violated CHECK constraint (3819), for which
      the driver has no class of its own.
    - A request is sent as application/json or not, and its body parses
      as JSON or not.  A parsed body is a JSON object whose members, when
      present, carry an integer for an INT column and text for a character
      column; a text is a sequence of one-byte characters.
    - [url_for] builds an absolute URL from an endpoint and its arguments;
      a URL is represented by that endpoint and those arguments.
    - Python's builtin [int], applied by [row_to_business_dict] to the
      text of zip_code, is a parameter of the development. *)

From Stdlib Require Import ZArith Lia.
From stdpp Require Import base option list strings gmap sorting pretty.

Local Open Scope string_scope.
Local Open Scope Z_scope.

(** ** Text: [str.lower] and the [in] test on strings *)

Definition lower_ascii (c : Ascii.ascii) : Ascii.ascii :=
  let n := Ascii.nat_of_ascii c in
  if (Nat.leb 65 n && Nat.leb n 90)%bool then Ascii.ascii_of_nat (n + 32) else c.

Fixpoint lower (s : string) : string :=
  match s with
  | EmptyString => EmptyString
  | String c s' => String (lower_ascii c) (lower s')
  end.

(** [starts_with needle hay]: [hay.startswith(needle)]. *)
Fixpoint starts_with (needle hay : string) : bool :=
  match needle, hay with
  | EmptyString, _ => true
  | String _ _, EmptyString => false
  | String a n', String b h' => Ascii.eqb a b && starts_with n' h'
  end.

(** [str_in needle hay]: [needle in hay] on two strings. *)
Fixpoint str_in (needle hay : string) : bool :=
  starts_with needle hay ||
  match hay with
  | EmptyString => false
  | String _ h' => str_in needle h'
  end.

(** ** Constants *)

Definition BUSINESSES : string := "businesses".
Definition REVIEWS : string := "reviews".

Definition REQUIRED_BUSINESS_FIELDS : list string :=
  ["owner_id"; "name"; "street_address"; "city"; "state"; "zip_code"].
Definition REQUIRED_REVIEW_FIELDS : list string :=
  ["user_id"; "business_id"; "stars"].
Definition REVIEW_FIELDS : list string :=
  REQUIRED_REVIEW_FIELDS ++ ["review_text"].

(** ** Responses *)

(** The absolute URLs [url_for] builds, by endpoint. *)
Inductive url : Type :=
  | url_for_get_business_by_id (business_id : Z)
  | url_for_get_review_by_id (review_id : Z)
  | url_for_get_businesses (offset limit : Z).

(** The dictionary [row_to_business_dict] returns. *)
Record business_dict : Type := {
  bd_id : Z;
  bd_owner_id : Z;
  bd_name : string;
  bd_street_address : string;
  bd_city : string;
  bd_state : string;
  bd_zip_code : Z;
  bd_self : url
}.

(** The dictionary [row_to_review_dict] returns. *)
Record review_dict : Type := {
  rd_id : Z;
  rd_user_id : Z;
  rd_business : url;
  rd_stars : Z;
  rd_review_text : string;
  rd_self : url
}.

Inductive body : Type :=
  | Empty                                   (* '' *)
  | Text (s : string)
  | Error (message : string)                (* {'Error': message} *)
  | Business (b : business_dict)
  | Businesses (bs : list business_dict)    (* a bare array *)
  | Page (entries : list business_dict) (next : option url)
  | Review (r : review_dict)
  | Reviews (rs : list review_dict).

Inductive exn : Type :=
  | BadRequest            (* request.get_json(): the body does not parse *)
  | UnsupportedMediaType  (* request.get_json(): not sent as application/json *)
  | TypeError
  | KeyError (key : string)
  | ValueError
  | NoResultFound
  | MultipleResultsFound
  | IntegrityError (orig : string)
  | OperationalError (orig : string)
  | DataError (orig : string).

(** What a handler produces: a body with a status, or an exception that
    leaves the handler. *)
Inductive result : Type :=
  | Response (b : body) (status : Z)
  | Raised (e : exn).

(** The status the client sees: Flask answers an exception of werkzeug
    with its own code and any other exception with 500. *)
Definition status_of (r : result) : Z :=
  match r with
  | Response _ status => status
  | Raised BadRequest => 400
  | Raised UnsupportedMediaType => 415
  | Raised _ => 500
  end.

Definition ERROR_BUSINESS_NOT_FOUND : body :=
  Error "No business with this business_id exists".
Definition ERROR_REVIEW_NOT_FOUND : body :=
  Error "No review with this review_id exists".

Definition bad_request (message : string) (status : Z) : result :=
  Response (Error message) status.

Definition MISSING_ATTRIBUTES : string :=
  "The request body is missing at least one of the required attributes".
Definition ALREADY_REVIEWED : string :=
  "You have already submitted a review for this business. " +:+
  "You can update your previous review, or delete it and submit a new review".

(** ** Request bodies *)

Record business_json : Type := {
  j_owner_id : option Z;
  j_name : option string;
  j_street_address : option string;
  j_city : option string;
  j_state : option string;
  j_zip_code : option string
}.

Record review_json : Type := {
  j_user_id : option Z;
  j_business_id : option Z;
  j_stars : option Z;
  j_review_text : option string
}.

(** [key in data] on a parsed JSON object. *)
Class JsonObject (A : Type) := has_key : string → A → bool.

#[global] Instance business_json_object : JsonObject business_json := λ key c,
  if String.eqb key "owner_id" then bool_decide (is_Some (j_owner_id c))
  else if String.eqb key "name" then bool_decide (is_Some (j_name c))
  else if String.eqb key "street_address" then bool_decide (is_Some (j_street_address c))
  else if String.eqb key "city" then bool_decide (is_Some (j_city c))
  else if String.eqb key "state" then bool_decide (is_Some (j_state c))
  else if String.eqb key "zip_code" then bool_decide (is_Some (j_zip_code c))
  else false.

#[global] Instance review_json_object : JsonObject review_json := λ key c,
  if String.eqb key "user_id" then bool_decide (is_Some (j_user_id c))
  else if String.eqb key "business_id" then bool_decide (is_Some (j_business_id c))
  else if String.eqb key "stars" then bool_decide (is_Some (j_stars c))
  else if String.eqb key "review_text" then bool_decide (is_Some (j_review_text c))
  else false.

(** The empty object [{}]. *)
Definition empty_review_json : review_json :=
  {| j_user_id := None; j_business_id := None; j_stars := None; j_review_text := None |}.

(** [content[key]]. *)
Definition getitem {A : Type} (key : string) (member : option A) : exn + A :=
  match member with
  | Some v => inr v
  | None => inl (KeyError key)
  end.

(** What a request carries as its body. *)
Inductive sent (A : Type) : Type :=
  | NotJson               (* the request is not sent as application/json *)
  | Unparseable           (* sent as application/json; absent, or not JSON *)
  | Json (content : A).
Arguments NotJson {A}.
Arguments Unparseable {A}.
Arguments Json {A} content.

(** [request.get_json(silent=...)]: the parsed body; when there is none,
    [None] if silent, and otherwise the HTTP error of the case: 415 for
    a request that is not sent as application/json, 400 for a body that
    does not parse. *)
Definition get_json {A : Type} (silent : bool) (request_body : sent A) : exn + option A :=
  match request_body with
  | Json c => inr (Some c)
  | NotJson => if silent then inr None else inl UnsupportedMediaType
  | Unparseable => if silent then inr None else inl BadRequest
  end.

(** ** Helper functions *)

Fixpoint has_required_fields {A : Type} `{JsonObject A}
    (data : A) (required_fields : list string) : option string :=
  match required_fields with
  | [] => None
  | field :: fields =>
      if negb (has_key field data) then Some field
      else has_required_fields data fields
  end.

(** Truth value of [missing] in [if missing:]. *)
Definition truthy (missing : option string) : bool :=
  match missing with
  | None => false
  | Some field => negb (String.eqb field "")
  end.

(** ** The store *)

(** A row of [businesses], without its key business_id. *)
Record business_row : Type := {
  owner_id : Z;
  name : string;
  street_address : string;
  city : string;
  state : string;
  zip_code : string
}.

(** A row of [reviews], without its key review_id. *)
Record review_row : Type := {
  user_id : Z;
  business_id : Z;
  stars : Z;
  review_text : string
}.

Record store : Type := {
  businesses : gmap Z business_row;
  reviews : gmap Z review_row;
  next_business_id : Z;       (* AUTO_INCREMENT of businesses *)
  next_review_id : Z          (* AUTO_INCREMENT of reviews *)
}.

(** The two tables, just created. *)
Definition empty_store : store :=
  {| businesses := ∅; reviews := ∅; next_business_id := 1; next_review_id := 1 |}.

(** CREATE TABLE IF NOT EXISTS, twice: [db] is [None] for a database that
    has no table yet. *)
Definition create_tables (db : option store) : store := default empty_store db.

(** *** Columns *)

Definition ER_WARN_DATA_OUT_OF_RANGE (column : string) : string :=
  "Out of range value for column '" +:+ column +:+ "' at row 1".
Definition ER_DATA_TOO_LONG (column : string) : string :=
  "Data too long for column '" +:+ column +:+ "' at row 1".

(** The values of an INT column. *)
Definition fits_INT (z : Z) : Prop := -2147483648 ≤ z ≤ 2147483647.

#[global] Instance fits_INT_dec z : Decision (fits_INT z).
Proof. unfold fits_INT. apply _. Defined.

(** A parameter bound to an INT column. *)
Definition INT (column : string) (z : Z) : exn + Z :=
  if bool_decide (fits_INT z) then inr z
  else inl (DataError (ER_WARN_DATA_OUT_OF_RANGE column)).

Definition is_space (c : Ascii.ascii) : bool := Ascii.eqb c (Ascii.ascii_of_nat 32).

Fixpoint all_spaces (s : string) : bool :=
  match s with
  | EmptyString => true
  | String c s' => is_space c && all_spaces s'
  end.

(** [s] without the spaces at its end. *)
Fixpoint rstrip (s : string) : string :=
  match s with
  | EmptyString => EmptyString
  | String c s' => if all_spaces s then EmptyString else String c (rstrip s')
  end.

Fixpoint string_take (n : nat) (s : string) : string :=
  match n, s with
  | S n', String c s' => String c (string_take n' s')
  | _, _ => EmptyString
  end.

Fixpoint string_drop (n : nat) (s : string) : string :=
  match n, s with
  | S n', String _ s' => string_drop n' s'
  | _, _ => s
  end.

(** A parameter bound to a VARCHAR(n) column: spaces beyond the n-th
    character are cut, any other character there is an error. *)
Definition VARCHAR (n : nat) (column : string) (s : string) : exn + string :=
  if all_spaces (string_drop n s) then inr (string_take n s)
  else inl (DataError (ER_DATA_TOO_LONG column)).

(** A parameter bound to a CHAR(n) column, as SELECT returns it: the
    spaces at the end are not kept. *)
Definition CHAR (n : nat) (column : string) (s : string) : exn + string :=
  if Nat.leb (String.length (rstrip s)) n then inr (rstrip s)
  else inl (DataError (ER_DATA_TOO_LONG column)).

(** The texts a VARCHAR(n) column holds as they are given. *)
Definition fits_VARCHAR (n : nat) (s : string) : Prop :=
  (String.length s ≤ n)%nat.

(** The texts a CHAR(n) column returns as they are given. *)
Definition fits_CHAR (n : nat) (s : string) : Prop :=
  (String.length s ≤ n)%nat ∧ rstrip s = s.

(** The parameters of INSERT INTO businesses and of UPDATE businesses,
    brought to the columns of the table. *)
Definition business_columns (row : business_row) : exn + business_row :=
  match INT "owner_id" (owner_id row) with
  | inl e => inl e
  | inr o =>
  match VARCHAR 50 "name" (name row) with
  | inl e => inl e
  | inr n =>
  match VARCHAR 100 "street_address" (street_address row) with
  | inl e => inl e
  | inr a =>
  match VARCHAR 50 "city" (city row) with
  | inl e => inl e
  | inr c =>
  match CHAR 2 "state" (state row) with
  | inl e => inl e
  | inr s =>
  match CHAR 5 "zip_code" (zip_code row) with
  | inl e => inl e
  | inr z =>
      inr {| owner_id := o; name := n; street_address := a;
             city := c; state := s; zip_code := z |}
  end end end end end end.

(** The parameters of INSERT INTO reviews, brought to the columns. *)
Definition review_columns (row : review_row) : exn + review_row :=
  match INT "user_id" (user_id row) with
  | inl e => inl e
  | inr u =>
  match INT "business_id" (business_id row) with
  | inl e => inl e
  | inr b =>
  match INT "stars" (stars row) with
  | inl e => inl e
  | inr s =>
  match VARCHAR 1000 "review_text" (review_text row) with
  | inl e => inl e
  | inr t =>
      inr {| user_id := u; business_id := b; stars := s; review_text := t |}
  end end end end.

(** The rows that are stored as they are given. *)
Definition business_fits (row : business_row) : Prop :=
  fits_INT (owner_id row)
  ∧ fits_VARCHAR 50 (name row)
  ∧ fits_VARCHAR 100 (street_address row)
  ∧ fits_VARCHAR 50 (city row)
  ∧ fits_CHAR 2 (state row)
  ∧ fits_CHAR 5 (zip_code row).

Definition review_fits (row : review_row) : Prop :=
  fits_INT (user_id row)
  ∧ fits_INT (business_id row)
  ∧ fits_INT (stars row)
  ∧ fits_VARCHAR 1000 (review_text row).

(** CONSTRAINT ck_stars CHECK (stars BETWEEN 0 AND 5) *)
Definition ck_stars (s : Z) : bool := (0 <=? s) && (s <=? 5).

(** CONSTRAINT uq_user_business UNIQUE (user_id, business_id): whether
    the pair is already in the index. *)
Definition uq_user_business (u b : Z) (rs : gmap Z review_row) : bool :=
  bool_decide (map_Exists (λ _ r, user_id r = u ∧ business_id r = b) rs).

(** The message texts of the server. *)
Definition ER_CHECK_CONSTRAINT_VIOLATED : string :=
  "Check constraint 'ck_stars' is violated.".
Definition ER_DUP_ENTRY (u b : Z) : string :=
  "Duplicate entry '" +:+ pretty u +:+ "-" +:+ pretty b +:+
  "' for key 'reviews.uq_user_business'".
Definition ER_NO_REFERENCED_ROW_2 : string :=
  "Cannot add or update a child row: a foreign key constraint fails" +:+
  " (CONSTRAINT fk_reviews_business FOREIGN KEY (business_id)" +:+
  " REFERENCES businesses (business_id) ON DELETE CASCADE)".

(** The store after INSERT INTO businesses has added [row]. *)
Definition business_inserted (row : business_row) (st : store) : store :=
  {| businesses := <[next_business_id st := row]> (businesses st);
     reviews := reviews st;
     next_business_id := next_business_id st + 1;
     next_review_id := next_review_id st |}.

(** The store after UPDATE businesses ... WHERE business_id = :id. *)
Definition business_updated (id : Z) (row : business_row) (st : store) : store :=
  {| businesses := alter (λ _, row) id (businesses st);
     reviews := reviews st;
     next_business_id := next_business_id st;
     next_review_id := next_review_id st |}.

(** The store after DELETE FROM businesses WHERE business_id = :id has
    deleted a row: ON DELETE CASCADE deletes the reviews that refer to
    it. *)
Definition business_deleted (id : Z) (st : store) : store :=
  {| businesses := delete id (businesses st);
     reviews := filter (λ kr, business_id kr.2 ≠ id) (reviews st);
     next_business_id := next_business_id st;
     next_review_id := next_review_id st |}.

(** The store after INSERT INTO reviews has added [row]. *)
Definition review_inserted (row : review_row) (st : store) : store :=
  {| businesses := businesses st;
     reviews := <[next_review_id st := row]> (reviews st);
     next_business_id := next_business_id st;
     next_review_id := next_review_id st + 1 |}.

(** The row UPDATE reviews makes of [old]; [new_text] is [None] for the
    statement that sets stars alone. *)
Definition review_edited (old : review_row) (new_stars : Z) (new_text : option string)
    : review_row :=
  {| user_id := user_id old;
     business_id := business_id old;
     stars := new_stars;
     review_text := default (review_text old) new_text |}.

(** The store with [row] under the key [id] of [reviews]. *)
Definition review_stored (id : Z) (row : review_row) (st : store) : store :=
  {| businesses := businesses st;
     reviews := <[id := row]> (reviews st);
     next_business_id := next_business_id st;
     next_review_id := next_review_id st |}.

(** The store after DELETE FROM reviews WHERE review_id = :id has deleted
    a row. *)
Definition review_deleted (id : Z) (st : store) : store :=
  {| businesses := businesses st;
     reviews := delete id (reviews st);
     next_business_id := next_business_id st;
     next_review_id := next_review_id st |}.

(** INSERT INTO businesses (...) VALUES (...): the new store and the
    generated key. *)
Definition insert_business (row : business_row) (st : store) : exn + store * Z :=
  match business_columns row with
  | inl e => inl e
  | inr row' => inr (business_inserted row' st, next_business_id st)
  end.

(** UPDATE businesses SET ... WHERE business_id = :id *)
Definition update_business (id : Z) (row : business_row) (st : store) : exn + store :=
  match businesses st !! id with
  | None => inr st
  | Some _ =>
      match business_columns row with
      | inl e => inl e
      | inr row' => inr (business_updated id row' st)
      end
  end.

(** DELETE FROM businesses WHERE business_id = :id: the new store and the
    count of rows deleted from [businesses]. *)
Definition delete_business_row (id : Z) (st : store) : exn + store * Z :=
  match businesses st !! id with
  | None => inr (st, 0)
  | Some _ => inr (business_deleted id st, 1)
  end.

(** The row of INSERT INTO reviews, once it has the types of the columns:
    ck_stars is evaluated on it, then it goes to the indexes
    (uq_user_business, then the foreign key). *)
Definition insert_review_row (row : review_row) (st : store) : exn + store * Z :=
  if negb (ck_stars (stars row)) then
    inl (OperationalError ER_CHECK_CONSTRAINT_VIOLATED)
  else if uq_user_business (user_id row) (business_id row) (reviews st) then
    inl (IntegrityError (ER_DUP_ENTRY (user_id row) (business_id row)))
  else if negb (bool_decide (is_Some (businesses st !! business_id row))) then
    inl (IntegrityError ER_NO_REFERENCED_ROW_2)
  else
    inr (review_inserted row st, next_review_id st).

(** INSERT INTO reviews (...) VALUES (...) *)
Definition insert_review (row : review_row) (st : store) : exn + store * Z :=
  match review_columns row with
  | inl e => inl e
  | inr row' => insert_review_row row' st
  end.

(** The parameters of UPDATE reviews, brought to the columns. *)
Definition review_update_columns (new_stars : Z) (new_text : option string)
    : exn + Z * option string :=
  match INT "stars" new_stars with
  | inl e => inl e
  | inr s =>
      match new_text with
      | None => inr (s, None)
      | Some t =>
          match VARCHAR 1000 "review_text" t with
          | inl e => inl e
          | inr t' => inr (s, Some t')
          end
      end
  end.

(** UPDATE reviews SET stars = :stars [, review_text = :review_text]
    WHERE review_id = :id; the parameters are brought to the columns and
    ck_stars is evaluated on the row the statement would write. *)
Definition update_review (id : Z) (new_stars : Z) (new_text : option string)
    (st : store) : exn + store :=
  match reviews st !! id with
  | None => inr st
  | Some old =>
      match review_update_columns new_stars new_text with
      | inl e => inl e
      | inr (s, t) =>
          if negb (ck_stars s) then
            inl (OperationalError ER_CHECK_CONSTRAINT_VIOLATED)
          else
            inr (review_stored id (review_edited old s t) st)
      end
  end.

(** DELETE FROM reviews WHERE review_id = :id *)
Definition delete_review_row (id : Z) (st : store) : exn + store * Z :=
  match reviews st !! id with
  | None => inr (st, 0)
  | Some _ => inr (review_deleted id st, 1)
  end.

(** SELECT ... FROM businesses WHERE business_id = :id *)
Definition select_business (id : Z) (st : store) : list (Z * business_row) :=
  match businesses st !! id with
  | Some row => [(id, row)]
  | None => []
  end.

(** SELECT ... FROM reviews WHERE review_id = :id *)
Definition select_review (id : Z) (st : store) : list (Z * review_row) :=
  match reviews st !! id with
  | Some row => [(id, row)]
  | None => []
  end.

(** ORDER BY business_id / ORDER BY review_id: the rows of a table by
    ascending key. *)
Definition key_le {A : Type} (x y : Z * A) : Prop := x.1 ≤ y.1.

(** Strictly ascending keys. *)
Definition key_lt {A : Type} (x y : Z * A) : Prop := x.1 < y.1.

#[global] Instance key_le_dec {A : Type} (x y : Z * A) : Decision (key_le x y).
Proof. unfold key_le. apply _. Defined.

Definition order_by_key {A : Type} (table : gmap Z A) : list (Z * A) :=
  merge_sort key_le (map_to_list table).

(** SELECT ... FROM businesses ORDER BY business_id
    LIMIT :limit OFFSET :offset *)
Definition select_businesses_page (limit offset : Z) (st : store)
    : list (Z * business_row) :=
  take (Z.to_nat limit) (drop (Z.to_nat offset) (order_by_key (businesses st))).

(** SELECT ... FROM businesses WHERE owner_id = :owner_id
    ORDER BY business_id *)
Definition select_businesses_of_owner (owner : Z) (st : store)
    : list (Z * business_row) :=
  filter (λ kr, owner_id kr.2 = owner) (order_by_key (businesses st)).

(** SELECT ... FROM reviews WHERE user_id = :uid ORDER BY review_id *)
Definition select_reviews_of_user (uid : Z) (st : store)
    : list (Z * review_row) :=
  filter (λ kr, user_id kr.2 = uid) (order_by_key (reviews st)).

(** ** Connections *)

(** A connection of the pool: the committed state of the store, the state
    the open transaction sees, and LAST_INSERT_ID() of the session. *)
Record connection : Type := {
  committed : store;
  working : store;
  last_insert_id : Z
}.

(** Code that runs on a connection and may raise. *)
Definition DB (A : Type) : Type := connection → (exn + A) * connection.

Definition ret {A : Type} (a : A) : DB A := λ c, (inr a, c).
Definition raise {A : Type} (e : exn) : DB A := λ c, (inl e, c).
Definition bind {A B : Type} (k : A → DB B) (m : DB A) : DB B := λ c,
  match m c with
  | (inr a, c') => k a c'
  | (inl e, c') => (inl e, c')
  end.

#[global] Instance DB_ret : MRet DB := @ret.
#[global] Instance DB_bind : MBind DB := @bind.

(** Lifting [content[key]] and the like. *)
Definition lift {A : Type} (r : exn + A) : DB A :=
  match r with
  | inr a => ret a
  | inl e => raise e
  end.

(** conn.execute of a statement that reads. *)
Definition query {A : Type} (select : store → A) : DB A := λ c,
  (inr (select (working c)), c).

(** conn.execute of a statement that writes, returning its count (or the
    generated key). *)
Definition execute (statement : store → exn + store * Z) (is_insert : bool) : DB Z := λ c,
  match statement (working c) with
  | inr (st', n) =>
      (inr n, {| committed := committed c; working := st';
                 last_insert_id := if is_insert then n else last_insert_id c |})
  | inl e => (inl e, c)
  end.

Definition execute_update (statement : store → exn + store) : DB unit := λ c,
  match statement (working c) with
  | inr st' =>
      (inr (), {| committed := committed c; working := st';
                  last_insert_id := last_insert_id c |})
  | inl e => (inl e, c)
  end.

(** SELECT LAST_INSERT_ID() *)
Definition select_last_insert_id : DB Z := λ c, (inr (last_insert_id c), c).

(** conn.commit() *)
Definition commit : DB unit := λ c,
  (inr (), {| committed := working c; working := working c;
              last_insert_id := last_insert_id c |}).

(** Result.one_or_none() *)
Definition one_or_none {A : Type} (rows : list A) : DB (option A) :=
  match rows with
  | [] => ret None
  | [row] => ret (Some row)
  | _ => raise MultipleResultsFound
  end.

(** Result.one() *)
Definition one {A : Type} (rows : list A) : DB A :=
  match rows with
  | [] => raise NoResultFound
  | [row] => ret row
  | _ => raise MultipleResultsFound
  end.

(** [with db.connect() as conn: ...]: the block runs on a fresh
    connection; closing the connection discards what was not committed. *)
Definition with_connect {A : Type} (block : DB A) (st : store) : (exn + A) * store :=
  let '(r, c) := block {| committed := st; working := st; last_insert_id := 0 |} in
  (r, committed c).

(** try: ... except ...: [handler] gives the except clause that matches
    the exception, if one does. *)
Definition try_except {A : Type} (block : DB A) (handler : exn → option (DB A)) : DB A := λ c,
  match block c with
  | (inl e, c') =>
      match handler e with
      | Some clause => clause c'
      | None => (inl e, c')
      end
  | (inr a, c') => (inr a, c')
  end.

(** [l[:stop]] *)
Definition slice_to {A : Type} (stop : Z) (l : list A) : list A :=
  let n := Z.of_nat (length l) in
  let stop := if stop <? 0 then Z.max 0 (stop + n) else Z.min stop n in
  take (Z.to_nat stop) l.

(** [[f(r) for r in rows]] where [f] may raise. *)
Fixpoint comprehension {A B : Type} (f : A → exn + B) (rows : list A) : exn + list B :=
  match rows with
  | [] => inr []
  | r :: rows' =>
      match f r with
      | inl e => inl e
      | inr b =>
          match comprehension f rows' with
          | inl e => inl e
          | inr bs => inr (b :: bs)
          end
      end
  end.

(** ** The application *)

Section App.

(** Python's [int] on text: [None] where it raises ValueError. *)
Variable py_int : string → option Z.

Definition row_to_business_dict (row : Z * business_row) : exn + business_dict :=
  let d := row.2 in
  match py_int (zip_code d) with
  | None => inl ValueError
  | Some zip =>
      inr {| bd_id := row.1;
             bd_owner_id := owner_id d;
             bd_name := name d;
             bd_street_address := street_address d;
             bd_city := city d;
             bd_state := state d;
             bd_zip_code := zip;
             bd_self := url_for_get_business_by_id row.1 |}
  end.

(** review_text is NOT NULL in the table, so that the test of the source
    for None always takes its first branch. *)
Definition row_to_review_dict (row : Z * review_row) : review_dict :=
  let d := row.2 in
  let review_id := row.1 in
  {| rd_id := review_id;
     rd_user_id := user_id d;
     rd_business := url_for_get_business_by_id (business_id d);
     rd_stars := stars d;
     rd_review_text := review_text d;
     rd_self := url_for_get_review_by_id review_id |}.

(** What a [with db.connect()] block that ends in [return] gives back. *)
Definition returned (r : (exn + result) * store) : result * store :=
  match r with
  | (inr response, st) => (response, st)
  | (inl e, st) => (Raised e, st)
  end.

Definition index (st : store) : result * store :=
  (Response (Text "Please access either the /businesses or /reviews endpoint.") 200, st).

(** *** Businesses endpoints *)

(** The six members of the body as a row. *)
Definition business_parameters (content : business_json) : exn + business_row :=
  match getitem "owner_id" (j_owner_id content),
        getitem "name" (j_name content),
        getitem "street_address" (j_street_address content),
        getitem "city" (j_city content),
        getitem "state" (j_state content),
        getitem "zip_code" (j_zip_code content) with
  | inr o, inr n, inr a, inr c, inr s, inr z =>
      inr {| owner_id := o; name := n; street_address := a;
             city := c; state := s; zip_code := z |}
  | inl e, _, _, _, _, _
  | _, inl e, _, _, _, _
  | _, _, inl e, _, _, _
  | _, _, _, inl e, _, _
  | _, _, _, _, inl e, _
  | _, _, _, _, _, inl e => inl e
  end.

Definition post_business (request_body : sent business_json) (st : store)
    : result * store :=
  match get_json false request_body with
  | inl e => (Raised e, st)
  | inr None => (Raised TypeError, st)
  | inr (Some content) =>
      if truthy (has_required_fields content REQUIRED_BUSINESS_FIELDS) then
        (bad_request MISSING_ATTRIBUTES 400, st)
      else
        match with_connect (
                parameters ← lift (business_parameters content);
                _ ← execute (insert_business parameters) true;
                new_id ← select_last_insert_id;
                _ ← commit;
                rows ← query (select_business new_id);
                one rows) st with
        | (inl e, st') => (Response (Error "Unable to create business") 500, st')
        | (inr row, st') =>
            match row_to_business_dict row with
            | inr d => (Response (Business d) 201, st')
            | inl e => (Raised e, st')
            end
        end
  end.

Definition get_businesses (limit offset : option Z) (st : store) : result * store :=
  let '(limit, offset) :=
    match limit, offset with
    | Some l, Some o => (l, o)
    | _, _ => (3, 0)
    end in
  let fetch_limit := Z.max 0 limit + 1 in
  let offset := Z.max 0 offset in
  match with_connect (query (select_businesses_page fetch_limit offset)) st with
  | (inl e, st') => (Raised e, st')
  | (inr rows, st') =>
      match comprehension row_to_business_dict (slice_to limit rows) with
      | inl e => (Raised e, st')
      | inr entries =>
          let next :=
            if Z.of_nat (length rows) >? limit
            then Some (url_for_get_businesses (offset + limit) limit)
            else None in
          (Response (Page entries next) 200, st')
      end
  end.

Definition get_business_by_id (id : Z) (st : store) : result * store :=
  returned (with_connect (
    rows ← query (select_business id);
    row ← one_or_none rows;
    match row with
    | None => mret (Response ERROR_BUSINESS_NOT_FOUND 404)
    | Some row =>
        d ← lift (row_to_business_dict row);
        mret (Response (Business d) 200)
    end) st).

Definition list_businesses_for_owner (owner : Z) (st : store) : result * store :=
  returned (with_connect (
    rows ← query (select_businesses_of_owner owner);
    ds ← lift (comprehension row_to_business_dict rows);
    mret (Response (Businesses ds) 200)) st).

Definition edit_business (id : Z) (request_body : sent business_json) (st : store)
    : result * store :=
  match get_json false request_body with
  | inl e => (Raised e, st)
  | inr None => (Raised TypeError, st)
  | inr (Some content) =>
      if truthy (has_required_fields content REQUIRED_BUSINESS_FIELDS) then
        (bad_request MISSING_ATTRIBUTES 400, st)
      else
        returned (with_connect (
          rows ← query (select_business id);
          existing ← one_or_none rows;
          match existing with
          | None => mret (Response ERROR_BUSINESS_NOT_FOUND 404)
          | Some _ =>
              parameters ← lift (business_parameters content);
              _ ← execute_update (update_business id parameters);
              _ ← commit;
              rows ← query (select_business id);
              row ← one rows;
              d ← lift (row_to_business_dict row);
              mret (Response (Business d) 200)
          end) st)
  end.

Definition delete_business (id : Z) (st : store) : result * store :=
  returned (with_connect (
    rowcount ← execute (delete_business_row id) false;
    _ ← commit;
    if rowcount =? 0 then mret (Response ERROR_BUSINESS_NOT_FOUND 404)
    else mret (Response Empty 204)) st).

(** *** Reviews endpoints *)

(** The except clauses of [post_reviews]. *)
Definition post_reviews_except (e : exn) : result :=
  match e with
  | IntegrityError orig =>
      let msg := lower orig in
      if str_in "uq_user_business" msg || str_in "duplicate" msg || str_in "unique" msg
      then bad_request ALREADY_REVIEWED 409
      else bad_request "Invalid review data" 400
  | _ => Response (Error "Unable to create review") 500
  end.

Definition post_reviews (request_body : sent review_json) (st : store)
    : result * store :=
  match get_json false request_body with
  | inl e => (Raised e, st)
  | inr None => (Raised TypeError, st)
  | inr (Some content) =>
      if truthy (has_required_fields content REQUIRED_REVIEW_FIELDS) then
        (bad_request MISSING_ATTRIBUTES 400, st)
      else
        (* the block gives [inl] of what it returns early, [inr] of the row *)
        match with_connect (
                bid ← lift (getitem "business_id" (j_business_id content));
                rows ← query (select_business bid);
                b ← one_or_none rows;
                match b with
                | None => mret (inl (Response ERROR_BUSINESS_NOT_FOUND 404))
                | Some _ =>
                    u ← lift (getitem "user_id" (j_user_id content));
                    bid ← lift (getitem "business_id" (j_business_id content));
                    s ← lift (getitem "stars" (j_stars content));
                    _ ← execute (insert_review
                           {| user_id := u; business_id := bid; stars := s;
                              review_text := default "" (j_review_text content) |}) true;
                    new_id ← select_last_insert_id;
                    _ ← commit;
                    rows ← query (select_review new_id);
                    row ← one rows;
                    mret (inr row)
                end) st with
        | (inl e, st') => (post_reviews_except e, st')
        | (inr (inl response), st') => (response, st')
        | (inr (inr row), st') => (Response (Review (row_to_review_dict row)) 201, st')
        end
  end.

Definition get_review_by_id (id : Z) (st : store) : result * store :=
  returned (with_connect (
    rows ← query (select_review id);
    row ← one_or_none rows;
    match row with
    | None => mret (Response ERROR_REVIEW_NOT_FOUND 404)
    | Some row => mret (Response (Review (row_to_review_dict row)) 200)
    end) st).

Definition list_reviews_for_user (uid : Z) (st : store) : result * store :=
  returned (with_connect (
    rows ← query (select_reviews_of_user uid);
    mret (Response (Reviews (row_to_review_dict <$> rows)) 200)) st).

Definition edit_review (id : Z) (request_body : sent review_json) (st : store)
    : result * store :=
  match get_json true request_body with
  | inl e => (Raised e, st)
  | inr parsed =>
      let content := default empty_review_json parsed in
      if negb (has_key "stars" content) then
        (bad_request MISSING_ATTRIBUTES 400, st)
      else
        returned (with_connect (
          rows ← query (select_review id);
          exists_ ← one_or_none rows;
          match exists_ with
          | None => mret (Response ERROR_REVIEW_NOT_FOUND 404)
          | Some _ =>
              s ← lift (getitem "stars" (j_stars content));
              (* [early] is what the except clause returns *)
              early ← try_except
                (_ ← execute_update (update_review id s (j_review_text content));
                 _ ← commit;
                 mret None)
                (λ e, match e with
                      | IntegrityError _ =>
                          Some (mret (Some (bad_request "Invalid review data" 400)))
                      | _ => None
                      end);
              match early with
              | Some response => mret response
              | None =>
                  rows ← query (select_review id);
                  row ← one rows;
                  mret (Response (Review (row_to_review_dict row)) 200)
              end
          end) st)
  end.

Definition delete_review (id : Z) (st : store) : result * store :=
  returned (with_connect (
    rowcount ← execute (delete_review_row id) false;
    _ ← commit;
    if rowcount =? 0 then mret (Response ERROR_REVIEW_NOT_FOUND 404)
    else mret (Response Empty 204)) st).

(** *** Routing *)

(** The requests the routes of the application match. *)
Inductive request : Type :=
  | GET_index
  | POST_businesses (request_body : sent business_json)
  | GET_businesses (limit offset : option Z)
  | GET_business (id : Z)
  | GET_owner_businesses (owner : Z)
  | PUT_business (id : Z) (request_body : sent business_json)
  | DELETE_business (id : Z)
  | POST_reviews (request_body : sent review_json)
  | GET_review (id : Z)
  | GET_user_reviews (uid : Z)
  | PUT_review (id : Z) (request_body : sent review_json)
  | DELETE_review (id : Z).

Definition app (req : request) (st : store) : result * store :=
  match req with
  | GET_index => index st
  | POST_businesses b => post_business b st
  | GET_businesses limit offset => get_businesses limit offset st
  | GET_business id => get_business_by_id id st
  | GET_owner_businesses owner => list_businesses_for_owner owner st
  | PUT_business id b => edit_business id b st
  | DELETE_business id => delete_business id st
  | POST_reviews b => post_reviews b st
  | GET_review id => get_review_by_id id st
  | GET_user_reviews uid => list_reviews_for_user uid st
  | PUT_review id b => edit_review id b st
  | DELETE_review id => delete_review id st
  end.

(** The responses to a sequence of requests, served one after the other. *)
Fixpoint serve (reqs : list request) (st : store) : list result * store :=
  match reqs with
  | [] => ([], st)
  | req :: reqs' =>
      let '(r, st') := app req st in
      let '(rs, st'') := serve reqs' st' in
      (r :: rs, st'')
  end.

End App.

(** ** Examples of stores and of [int] *)

(** [int] on a numeral of decimal digits; other text raises. *)
Fixpoint digits_value (acc : Z) (s : string) : option Z :=
  match s with
  | EmptyString => Some acc
  | String c s' =>
      let n := Ascii.nat_of_ascii c in
      if (Nat.leb 48 n && Nat.leb n 57)%bool
      then digits_value (10 * acc + Z.of_nat (n - 48)) s'
      else None
  end.

Definition decimal_int (s : string) : option Z :=
  match s with
  | EmptyString => None
  | _ => digits_value 0 s
  end.

Definition business_example (owner : Z) (n : string) : business_row :=
  {| owner_id := owner; name := n; street_address := "1 Main St";
     city := "Corvallis"; state := "OR"; zip_code := "97330" |}.

(** A store with four businesses and two reviews of business 1. *)
Definition store_example : store :=
  {| businesses :=
       <[1 := business_example 10 "A"]>
       (<[2 := business_example 10 "B"]>
       (<[3 := business_example 11 "C"]>
       (<[4 := business_example 12 "D"]> ∅)));
     reviews :=
       <[1 := {| user_id := 7; business_id := 1; stars := 3; review_text := "fine" |}]>
       (<[2 := {| user_id := 8; business_id := 1; stars := 5; review_text := "" |}]> ∅);
     next_business_id := 5;
     next_review_id := 3 |}.

(** ** Sequences of requests *)

(** The requests that create a row. *)
Definition is_creation (req : request) : bool :=
  match req with
  | POST_businesses _ | POST_reviews _ => true
  | _ => false
  end.

Definition deletes_business (id : Z) (req : request) : bool :=
  match req with
  | DELETE_business id' => bool_decide (id' = id)
  | _ => false
  end.

Definition deletes_review (id : Z) (req : request) : bool :=
  match req with
  | DELETE_review id' => bool_decide (id' = id)
  | _ => false
  end.

Definition is_2xx (r : result) : bool :=
  (200 <=? status_of r) && (status_of r <? 300).

(** How many of the requests that [target] selects were answered 2xx. *)
Fixpoint count_2xx (target : request → bool) (reqs : list request) (rs : list result)
    : nat :=
  match reqs, rs with
  | req :: reqs', r :: rs' =>
      ((if target req && is_2xx r then 1 else 0) + count_2xx target reqs' rs')%nat
  | _, _ => 0%nat
  end.

(** The statuses with which a handler may have written. *)
Definition may_have_written (r : result) : Prop :=
  status_of r = 200 ∨ status_of r = 201 ∨ status_of r = 204 ∨ status_of r = 500.

(** No key of [st'] is new with respect to [st]. *)
Definition no_new_keys (st st' : store) : Prop :=
  (∀ id, businesses st !! id = None → businesses st' !! id = None)
  ∧ (∀ id, reviews st !! id = None → reviews st' !! id = None).

(** ** Request bodies of the examples, and two statements the code refutes *)

Definition review_body (u b s : Z) (t : option string) : review_json :=
  {| j_user_id := Some u; j_business_id := Some b; j_stars := Some s;
     j_review_text := t |}.

(** A body with stars alone. *)
Definition stars_body (s : Z) : review_json :=
  {| j_user_id := None; j_business_id := None; j_stars := Some s;
     j_review_text := None |}.

(** A text of 1001 characters. *)
Fixpoint replicate_string (n : nat) (s : string) : string :=
  match n with
  | O => EmptyString
  | S n' => s +:+ replicate_string n' s
  end.
Definition text_1001 : string := replicate_string 1001 "a".

(** Every POST /reviews with the three members, an existing business and
    a pair (user_id, business_id) already reviewed is answered 409. *)
Definition duplicate_review_always_409 : Prop :=
  ∀ st content u b s,
    j_user_id content = Some u → j_business_id content = Some b →
    j_stars content = Some s →
    is_Some (businesses st !! b) →
    (∃ id row, reviews st !! id = Some row ∧ user_id row = u ∧ business_id row = b) →
    status_of (post_reviews (Json content) st).1 = 409.

(** Every PUT /reviews/{r} on an existing review whose body has stars and
    no review_text is answered 200. *)
Definition edit_review_always_200 : Prop :=
  ∀ st r old content s,
    reviews st !! r = Some old →
    j_stars content = Some s → j_review_text content = None →
    status_of (edit_review r (Json content) st).1 = 200.

(** The requests that build [store_example] from the empty store. *)
Definition requests_example : list request :=
  let business n owner :=
    POST_businesses (Json {| j_owner_id := Some owner; j_name := Some n;
                             j_street_address := Some "1 Main St";
                             j_city := Some "Corvallis"; j_state := Some "OR";
                             j_zip_code := Some "97330" |}) in
  [ business "A" 10; business "B" 10; business "C" 11; business "D" 12;
    POST_reviews (Json (review_body 7 1 3 (Some "fine")));
    POST_reviews (Json (review_body 8 1 5 None)) ].

(** A concrete row has the types of its columns. *)
Ltac solve_fits :=
  unfold business_fits, review_fits, fits_INT, fits_VARCHAR, fits_CHAR;
  cbn [owner_id name street_address city state zip_code
       user_id business_id stars review_text];
  repeat split; first [lia | reflexivity | (simpl; lia)].

(** Unfolding of the code that runs on a connection. *)
Ltac run_db :=
  unfold returned, with_connect, mbind, DB_bind, bind, mret, DB_ret, ret, raise,
    lift, query, execute, execute_update, commit, select_last_insert_id,
    one, one_or_none, try_except; simpl.

(** ** The writes of the application and the invariant of the store *)

(** The writes a request can commit. *)
Inductive store_step (st : store) : store → Prop :=
  | step_none :
      store_step st st
  | step_business_inserted row :
      store_step st (business_inserted row st)
  | step_business_updated id row :
      is_Some (businesses st !! id) →
      store_step st (business_updated id row st)
  | step_business_deleted id :
      store_step st (business_deleted id st)
  | step_review_inserted row :
      ck_stars (stars row) = true →
      uq_user_business (user_id row) (business_id row) (reviews st) = false →
      is_Some (businesses st !! business_id row) →
      store_step st (review_inserted row st)
  | step_review_stored id old new_stars new_text :
      reviews st !! id = Some old →
      ck_stars new_stars = true →
      store_step st (review_stored id (review_edited old new_stars new_text) st)
  | step_review_deleted id :
      store_step st (review_deleted id st).

(** The constraints [create_tables] declares on reviews, and the keys
    below the counters of AUTO_INCREMENT. *)
Record wf_store (st : store) : Prop := {
  wf_ck_stars :
    ∀ id row, reviews st !! id = Some row → ck_stars (stars row) = true;
  wf_fk_reviews_business :
    ∀ id row, reviews st !! id = Some row →
      is_Some (businesses st !! business_id row);
  wf_uq_user_business :
    ∀ id1 id2 row1 row2,
      reviews st !! id1 = Some row1 → reviews st !! id2 = Some row2 →
      user_id row1 = user_id row2 → business_id row1 = business_id row2 →
      id1 = id2;
  wf_business_keys :
    ∀ id, is_Some (businesses st !! id) → id < next_business_id st;
  wf_review_keys :
    ∀ id, is_Some (reviews st !! id) → id < next_review_id st
}.

(** ** Clients of the application *)

(** The body with the six members of [row]. *)
Definition business_body (row : business_row) : business_json :=
  {| j_owner_id := Some (owner_id row); j_name := Some (name row);
     j_street_address := Some (street_address row); j_city := Some (city row);
     j_state := Some (state row); j_zip_code := Some (zip_code row) |}.

(** The GET request of a URL that [url_for] has built. *)
Definition GET_url (u : url) : request :=
  match u with
  | url_for_get_business_by_id id => GET_business id
  | url_for_get_review_by_id id => GET_review id
  | url_for_get_businesses offset limit => GET_businesses (Some limit) (Some offset)
  end.

(** The requests that are served by a SELECT alone. *)
Definition is_read (req : request) : bool :=
  match req with
  | GET_index | GET_businesses _ _ | GET_business _ | GET_owner_businesses _
  | GET_review _ | GET_user_reviews _ => true
  | _ => false
  end.

(** A client that lists the businesses page after page: it collects the
    entries of a page and follows its next link, [fuel] pages at most;
    [None] when a page is not answered 200 or the pages do not end. *)
Fixpoint follow_next (py_int : string → option Z) (fuel : nat) (req : request)
    (st : store) : option (list business_dict) :=
  match fuel with
  | O => None
  | S fuel' =>
      match (app py_int req st).1 with
      | Response (Page entries next) status =>
          if negb (status =? 200) then None
          else
            match next with
            | None => Some entries
            | Some next =>
                match follow_next py_int fuel' (GET_url next) st with
                | Some rest => Some (entries ++ rest)%list
                | None => None
                end
            end
      | _ => None
      end
  end.

(** The statuses the handlers answer with. *)
Definition STATUSES : list Z := [200; 201; 204; 400; 404; 409; 415; 500].

(** The three texts that make [post_reviews] answer 409. *)
Definition DUPLICATE_MARKS : list string := ["uq_user_business"; "duplicate"; "unique"].

(** A key that was handed out and is no longer in the table. *)
Definition business_gone (id : Z) (st : store) : Prop :=
  businesses st !! id = None ∧ id < next_business_id st.
Definition review_gone (id : Z) (st : store) : Prop :=
  reviews st !! id = None ∧ id < next_review_id st.

(** * Properties *)

(** ** Columns *)

Lemma string_drop_ge n s : (String.length s ≤ n)%nat → string_drop n s = "".
Proof.
  revert n. induction s as [|c s IH]; intros [|n] Hlen; simpl in *; try done; try lia.
  apply IH. lia.
Qed.

Lemma string_take_ge n s : (String.length s ≤ n)%nat → string_take n s = s.
Proof.
  revert n. induction s as [|c s IH]; intros [|n] Hlen; simpl in *; try done; try lia.
  f_equal. apply IH. lia.
Qed.

Lemma INT_fits column z : fits_INT z → INT column z = inr z.
Proof. intros Hz. unfold INT. by rewrite bool_decide_eq_true_2. Qed.

Lemma INT_inr column z z' : INT column z = inr z' → z' = z ∧ fits_INT z.
Proof. unfold INT. case_bool_decide; [|done]. by intros [= <-]. Qed.

Lemma VARCHAR_fits n column s : fits_VARCHAR n s → VARCHAR n column s = inr s.
Proof.
  intros Hs. unfold VARCHAR. by rewrite string_drop_ge, string_take_ge.
Qed.

Lemma CHAR_fits n column s : fits_CHAR n s → CHAR n column s = inr s.
Proof.
  intros [Hlen Hs]. unfold CHAR. rewrite Hs.
  by rewrite (proj2 (Nat.leb_le _ _) Hlen).
Qed.

Lemma business_columns_fits row :
  business_fits row → business_columns row = inr row.
Proof.
  intros (Ho & Hn & Ha & Hc & Hs & Hz). unfold business_columns.
  rewrite (INT_fits _ _ Ho), (VARCHAR_fits _ _ _ Hn), (VARCHAR_fits _ _ _ Ha),
    (VARCHAR_fits _ _ _ Hc), (CHAR_fits _ _ _ Hs), (CHAR_fits _ _ _ Hz).
  by destruct row.
Qed.

Lemma review_columns_fits row :
  review_fits row → review_columns row = inr row.
Proof.
  intros (Hu & Hb & Hs & Ht). unfold review_columns.
  rewrite (INT_fits _ _ Hu), (INT_fits _ _ Hb), (INT_fits _ _ Hs),
    (VARCHAR_fits _ _ _ Ht).
  by destruct row.
Qed.

(** The integers of a stored review are the submitted ones. *)
Lemma review_columns_inr row row' :
  review_columns row = inr row' →
  user_id row' = user_id row ∧ business_id row' = business_id row
  ∧ stars row' = stars row.
Proof.
  unfold review_columns.
  destruct (INT "user_id" _) as [|u] eqn:Hu; [done|].
  destruct (INT "business_id" _) as [|b] eqn:Hb; [done|].
  destruct (INT "stars" _) as [|s] eqn:Hs; [done|].
  destruct (VARCHAR 1000 _ _); [done|]. intros [= <-]. simpl.
  apply INT_inr in Hu as [-> _]. apply INT_inr in Hb as [-> _].
  by apply INT_inr in Hs as [-> _].
Qed.

Lemma review_update_columns_fits s t :
  fits_INT s → (∀ text, t = Some text → fits_VARCHAR 1000 text) →
  review_update_columns s t = inr (s, t).
Proof.
  intros Hs Ht. unfold review_update_columns. rewrite (INT_fits _ _ Hs).
  destruct t as [text|]; [|done]. by rewrite (VARCHAR_fits _ _ _ (Ht text eq_refl)).
Qed.

Lemma review_update_columns_inr s t s' t' :
  review_update_columns s t = inr (s', t') → s' = s.
Proof.
  unfold review_update_columns.
  destruct (INT "stars" s) as [|z] eqn:Hs; [done|]. apply INT_inr in Hs as [-> _].
  destruct t as [text|]; [|by intros [= <- _]].
  destruct (VARCHAR 1000 _ _); [done|]. by intros [= <- _].
Qed.

(** ** Text and the classification of the errors of the store *)

Lemma str_in_starts_with needle hay : starts_with needle hay = true → str_in needle hay = true.
Proof. intros H. destruct hay; simpl; rewrite H; reflexivity. Qed.

Lemma duplicate_entry_classified u b :
  post_reviews_except (IntegrityError (ER_DUP_ENTRY u b)) = bad_request ALREADY_REVIEWED 409.
Proof.
  unfold post_reviews_except.
  assert (str_in "duplicate" (lower (ER_DUP_ENTRY u b)) = true) as ->.
  { apply str_in_starts_with. reflexivity. }
  rewrite orb_true_r. reflexivity.
Qed.

(** The violation of ck_stars is not an IntegrityError: it falls to the
    last except clause. *)
Lemma check_violation_classified :
  post_reviews_except (OperationalError ER_CHECK_CONSTRAINT_VIOLATED)
  = Response (Error "Unable to create review") 500.
Proof. reflexivity. Qed.

(** Whatever review_columns rejects is a DataError. *)
Lemma review_columns_inl row e :
  review_columns row = inl e → ∃ orig, e = DataError orig.
Proof.
  unfold review_columns, INT, VARCHAR.
  repeat (case_bool_decide || destruct (all_spaces _)); intros [= <-]; by eexists.
Qed.

Lemma business_columns_inl row e :
  business_columns row = inl e → ∃ orig, e = DataError orig.
Proof.
  unfold business_columns, INT, VARCHAR, CHAR.
  repeat (case_bool_decide || destruct (all_spaces _) || destruct (Nat.leb _ _));
    intros [= <-]; by eexists.
Qed.

Lemma review_update_columns_inl s t e :
  review_update_columns s t = inl e → ∃ orig, e = DataError orig.
Proof.
  unfold review_update_columns, INT, VARCHAR.
  case_bool_decide; [|intros [= <-]; by eexists].
  destruct t; [|done]. destruct (all_spaces _); [done|]. intros [= <-]; by eexists.
Qed.

Lemma insert_review_row_inr row st st' n :
  insert_review_row row st = inr (st', n) →
  ck_stars (stars row) = true ∧
  uq_user_business (user_id row) (business_id row) (reviews st) = false ∧
  is_Some (businesses st !! business_id row) ∧
  n = next_review_id st ∧
  st' = review_inserted row st.
Proof.
  unfold insert_review_row. intros H.
  destruct (ck_stars (stars row)); simpl in H; [|discriminate].
  destruct (uq_user_business _ _ _); [discriminate|].
  case_bool_decide; simpl in H; [|discriminate].
  by simplify_eq.
Qed.

Lemma insert_review_inr row st st' n :
  insert_review row st = inr (st', n) →
  ∃ row', review_columns row = inr row' ∧
  ck_stars (stars row') = true ∧
  uq_user_business (user_id row') (business_id row') (reviews st) = false ∧
  is_Some (businesses st !! business_id row') ∧
  n = next_review_id st ∧
  st' = review_inserted row' st.
Proof.
  unfold insert_review. destruct (review_columns row) as [|row']; [done|].
  intros H%insert_review_row_inr. by exists row'.
Qed.

Lemma select_review_inserted row st st' n :
  insert_review_row row st = inr (st', n) → select_review n st' = [(n, row)].
Proof.
  intros (_ & _ & _ & -> & ->)%insert_review_row_inr.
  unfold select_review, review_inserted. simpl. by rewrite lookup_insert_eq.
Qed.

Lemma post_reviews_eq st u b s t :
  post_reviews (Json {| j_user_id := Some u; j_business_id := Some b;
                        j_stars := Some s; j_review_text := t |}) st =
  match businesses st !! b with
  | None => (Response ERROR_BUSINESS_NOT_FOUND 404, st)
  | Some _ =>
      match review_columns {| user_id := u; business_id := b; stars := s;
                              review_text := default "" t |} with
      | inl e => (post_reviews_except e, st)
      | inr row =>
          match insert_review_row row st with
          | inl e => (post_reviews_except e, st)
          | inr (st', new_id) =>
              (Response (Review (row_to_review_dict (new_id, row))) 201, st')
          end
      end
  end.
Proof.
  unfold post_reviews. simpl. run_db. unfold select_business.
  destruct (businesses st !! b); simpl; [|done].
  unfold insert_review. destruct (review_columns _) as [e|row]; simpl; [done|].
  destruct (insert_review_row row st) as [e|[st' n]] eqn:Hins; simpl; [done|].
  by rewrite (select_review_inserted _ _ _ _ Hins).
Qed.

Lemma uq_user_business_true u b rs :
  uq_user_business u b rs = true ↔
  ∃ id row, rs !! id = Some row ∧ user_id row = u ∧ business_id row = b.
Proof.
  unfold uq_user_business. rewrite bool_decide_eq_true.
  apply map_Exists_lookup.
Qed.

Lemma ck_stars_true s : ck_stars s = true ↔ 0 ≤ s ≤ 5.
Proof. unfold ck_stars. rewrite andb_true_iff, !Z.leb_le. done. Qed.

Lemma ck_stars_false s : ck_stars s = false ↔ s < 0 ∨ 5 < s.
Proof.
  rewrite <- not_true_iff_false, ck_stars_true. lia.
Qed.
(** ** Validation *)

Lemma has_required_fields_None {A : Type} `{JsonObject A} (data : A) fields :
  has_required_fields data fields = None
  ↔ Forall (λ field, has_key field data = true) fields.
Proof.
  induction fields as [|field fields IH]; simpl.
  - split; [constructor|done].
  - destruct (has_key field data) eqn:Hkey; simpl.
    + rewrite IH. split; [by constructor|]. by inversion 1.
    + split; [done|]. inversion 1; congruence.
Qed.

(** The order in which the set of required fields is iterated does not
    matter to whether a field is reported missing. *)
Lemma has_required_fields_permutation {A : Type} `{JsonObject A} (data : A)
    fields fields' :
  fields ≡ₚ fields' →
  has_required_fields data fields = None
  ↔ has_required_fields data fields' = None.
Proof. intros Hp. by rewrite !has_required_fields_None, Hp. Qed.

(** The field reported missing is a required field that the body lacks. *)
Lemma has_required_fields_Some {A : Type} `{JsonObject A} (data : A) fields field :
  has_required_fields data fields = Some field →
  field ∈ fields ∧ has_key field data = false.
Proof.
  induction fields as [|f fields IH]; simpl; [done|].
  destruct (has_key f data) eqn:Hkey; simpl.
  - intros [? ?]%IH. split; [by right|done].
  - intros [= <-]. split; [by left|done].
Qed.

Lemma required_review_fields content :
  truthy (has_required_fields content REQUIRED_REVIEW_FIELDS) = false
  ↔ is_Some (j_user_id content) ∧ is_Some (j_business_id content)
    ∧ is_Some (j_stars content).
Proof.
  destruct content as [[u|] [b|] [s|] t]; simpl; split; try done;
    intros (Hu & Hb & Hs); by (inversion Hu || inversion Hb || inversion Hs).
Qed.

(** ** POST /reviews *)

Lemma review_json_members content u b s :
  j_user_id content = Some u → j_business_id content = Some b →
  j_stars content = Some s →
  content = review_body u b s (j_review_text content).
Proof. destruct content; simpl; intros; by subst. Qed.

(** C3: a POST /reviews whose body has user_id, business_id and stars, and
    whose business_id is the key of no business, is answered 404 with the
    business-not-found body, whatever the other members are, and the store
    is left as it was. *)
Theorem post_reviews_unknown_business st content u b s :
  j_user_id content = Some u → j_business_id content = Some b →
  j_stars content = Some s →
  businesses st !! b = None →
  post_reviews (Json content) st = (Response ERROR_BUSINESS_NOT_FOUND 404, st).
Proof.
  intros Hu Hb Hs Hnone.
  rewrite (review_json_members _ _ _ _ Hu Hb Hs). unfold review_body.
  by rewrite post_reviews_eq, Hnone.
Qed.

Lemma post_reviews_unknown_business_witness :
  businesses store_example !! 77 = None ∧
  post_reviews (Json (review_body 9 77 4 None)) store_example
  = (Response ERROR_BUSINESS_NOT_FOUND 404, store_example).
Proof.
  split; [reflexivity|].
  apply (post_reviews_unknown_business _ _ 9 77 4); reflexivity.
Defined.

(** What POST /reviews answers once the business is found and the
    parameters have the types of the columns. *)
Lemma post_reviews_fits st u b s t brow :
  businesses st !! b = Some brow →
  review_fits {| user_id := u; business_id := b; stars := s;
                 review_text := default "" t |} →
  post_reviews (Json (review_body u b s t)) st =
  let row := {| user_id := u; business_id := b; stars := s;
                review_text := default "" t |} in
  match insert_review_row row st with
  | inl e => (post_reviews_except e, st)
  | inr (st', new_id) =>
      (Response (Review (row_to_review_dict (new_id, row))) 201, st')
  end.
Proof.
  intros Hb Hfits. unfold review_body.
  by rewrite post_reviews_eq, Hb, (review_columns_fits _ Hfits).
Qed.

(** C7 (the code departs from the claim): a POST /reviews with user_id,
    the key of an existing business and stars outside 0..5 is answered
    500 with the body of the last except clause, not 400 with the
    invalid-data message: the violation of ck_stars reaches the handler as
    an OperationalError, which the clause for IntegrityError does not
    catch.  Nothing is inserted, and ck_stars holds of the stars 0..5 and
    of no other. *)
Theorem post_reviews_stars_out_of_range_500 st content u b s :
  j_user_id content = Some u → j_business_id content = Some b →
  j_stars content = Some s →
  is_Some (businesses st !! b) →
  ((s < 0 ∨ 5 < s) →
     post_reviews (Json content) st
     = (Response (Error "Unable to create review") 500, st))
  ∧ (ck_stars s = true ↔ 0 ≤ s ≤ 5).
Proof.
  intros Hu Hb Hs [row Hrow].
  rewrite (review_json_members _ _ _ _ Hu Hb Hs). unfold review_body.
  rewrite post_reviews_eq, Hrow.
  split; [|apply ck_stars_true].
  intros Hout%ck_stars_false.
  destruct (review_columns _) as [e|row'] eqn:Hcol.
  - by apply review_columns_inl in Hcol as [orig ->].
  - apply review_columns_inr in Hcol as (_ & _ & Hstars). simpl in Hstars.
    unfold insert_review_row. by rewrite Hstars, Hout.
Qed.

Lemma post_reviews_stars_out_of_range_500_witness :
  is_Some (businesses store_example !! 1)
  ∧ post_reviews (Json (review_body 9 1 6 None)) store_example
    = (Response (Error "Unable to create review") 500, store_example).
Proof.
  split; [by eexists|].
  apply (proj1 (post_reviews_stars_out_of_range_500 store_example
                  (review_body 9 1 6 None) 9 1 6
                  eq_refl eq_refl eq_refl (mk_is_Some _ _ eq_refl))).
  lia.
Defined.

(** C2, counterexample: user 7 has reviewed business 1; a second review of
    business 1 by user 7 is answered 500, not 409, when its stars are 9,
    and also when its review_text has 1001 characters: the store rejects
    the row before the row reaches the unique index. *)
Lemma duplicate_review_bad_stars_500 :
  reviews store_example !! 1
  = Some {| user_id := 7; business_id := 1; stars := 3; review_text := "fine" |}
  ∧ post_reviews (Json (review_body 7 1 9 None)) store_example
    = (Response (Error "Unable to create review") 500, store_example)
  ∧ post_reviews (Json (review_body 7 1 4 (Some text_1001))) store_example
    = (Response (Error "Unable to create review") 500, store_example)
  ∧ ¬ duplicate_review_always_409.
Proof.
  split; [reflexivity|]. split; [reflexivity|]. split; [by vm_compute|].
  intros H.
  specialize (H store_example (review_body 7 1 9 None) 7 1 9
                eq_refl eq_refl eq_refl (mk_is_Some _ _ eq_refl)).
  assert (status_of (post_reviews (Json (review_body 7 1 9 None)) store_example).1 = 500)
    as H500 by reflexivity.
  rewrite H in H500; [discriminate|].
  exists 1, {| user_id := 7; business_id := 1; stars := 3; review_text := "fine" |}.
  split; [reflexivity|]. done.
Qed.

(** C2, amended: a POST /reviews with the three members, where user_id and
    business_id are INT values, stars is within 0..5, review_text, if the
    body has one, has at most 1000 characters, the business exists and a
    review with the same (user_id, business_id) is in the store, is
    answered 409 with the message that tells the client to update or
    delete the existing review, and the store is left as it was. *)
Theorem post_reviews_duplicate_409 st content u b s :
  j_user_id content = Some u → j_business_id content = Some b →
  j_stars content = Some s →
  is_Some (businesses st !! b) →
  (∃ id row, reviews st !! id = Some row ∧ user_id row = u ∧ business_id row = b) →
  fits_INT u → fits_INT b →
  0 ≤ s ≤ 5 →
  (∀ t, j_review_text content = Some t → fits_VARCHAR 1000 t) →
  post_reviews (Json content) st = (bad_request ALREADY_REVIEWED 409, st).
Proof.
  intros Hu Hb Hs [row Hrow] Hdup%uq_user_business_true Hfu Hfb Hin Ht.
  rewrite (review_json_members _ _ _ _ Hu Hb Hs).
  rewrite (post_reviews_fits _ _ _ _ _ _ Hrow).
  - cbn zeta. unfold insert_review_row. cbn [stars user_id business_id].
    apply ck_stars_true in Hin. rewrite Hin, Hdup. cbn [negb].
    by rewrite duplicate_entry_classified.
  - unfold review_fits. simpl.
    split; [done|]. split; [done|]. split; [unfold fits_INT; lia|].
    destruct (j_review_text content) as [t|]; simpl.
    + by apply Ht.
    + unfold fits_VARCHAR. simpl. lia.
Qed.

Lemma post_reviews_duplicate_409_witness :
  post_reviews (Json (review_body 7 1 4 (Some "again"))) store_example
  = (bad_request ALREADY_REVIEWED 409, store_example).
Proof.
  apply (post_reviews_duplicate_409 _ _ 7 1 4); try reflexivity.
  - by eexists.
  - exists 1, {| user_id := 7; business_id := 1; stars := 3; review_text := "fine" |}.
    split; [reflexivity|]. done.
  - unfold fits_INT. lia.
  - unfold fits_INT. lia.
  - lia.
  - intros t [= <-]. unfold fits_VARCHAR. simpl. lia.
Defined.
(** ** GET, PUT and DELETE on reviews; DELETE on businesses *)

Lemma get_review_by_id_eq id st :
  get_review_by_id id st =
  match reviews st !! id with
  | None => (Response ERROR_REVIEW_NOT_FOUND 404, st)
  | Some row => (Response (Review (row_to_review_dict (id, row))) 200, st)
  end.
Proof.
  unfold get_review_by_id. run_db. unfold select_review.
  by destruct (reviews st !! id).
Qed.

Lemma delete_business_eq id st :
  delete_business id st =
  match businesses st !! id with
  | None => (Response ERROR_BUSINESS_NOT_FOUND 404, st)
  | Some _ => (Response Empty 204, business_deleted id st)
  end.
Proof.
  unfold delete_business. run_db. unfold delete_business_row.
  by destruct (businesses st !! id).
Qed.

Lemma delete_review_eq id st :
  delete_review id st =
  match reviews st !! id with
  | None => (Response ERROR_REVIEW_NOT_FOUND 404, st)
  | Some _ => (Response Empty 204, review_deleted id st)
  end.
Proof.
  unfold delete_review. run_db. unfold delete_review_row.
  by destruct (reviews st !! id).
Qed.

Lemma edit_review_eq id content s st :
  j_stars content = Some s →
  edit_review id (Json content) st =
  match reviews st !! id with
  | None => (Response ERROR_REVIEW_NOT_FOUND 404, st)
  | Some old =>
      match review_update_columns s (j_review_text content) with
      | inl e => (Raised e, st)
      | inr (s', t') =>
          if ck_stars s' then
            let row := review_edited old s' t' in
            (Response (Review (row_to_review_dict (id, row))) 200,
             review_stored id row st)
          else (Raised (OperationalError ER_CHECK_CONSTRAINT_VIOLATED), st)
      end
  end.
Proof.
  intros Hs. unfold edit_review. simpl.
  assert (has_key "stars" content = true) as ->.
  { unfold has_key, review_json_object. simpl. by rewrite Hs. }
  simpl. run_db. rewrite Hs. unfold select_review, update_review. simpl.
  destruct (reviews st !! id) as [old|] eqn:Hold; simpl; [|done].
  rewrite Hold.
  destruct (review_update_columns s (j_review_text content)) as [e|[s' t']] eqn:Hcol.
  - by apply review_update_columns_inl in Hcol as [orig ->].
  - destruct (ck_stars s'); simpl; [|done].
    by rewrite lookup_insert_eq.
Qed.

(** C1: DELETE /businesses/{b} is answered 404, the store unchanged, when
    the store has no business b, and 204 with an empty body when it has
    one; after the 204 no business b and no review of business b is in the
    store, and GET /reviews/{r} is answered 404 for every review r that
    referred to b. *)
Theorem delete_business_cascades st b :
  match businesses st !! b with
  | None => delete_business b st = (Response ERROR_BUSINESS_NOT_FOUND 404, st)
  | Some _ =>
      ∃ st', delete_business b st = (Response Empty 204, st')
        ∧ businesses st' !! b = None
        ∧ (∀ r row, reviews st' !! r = Some row → business_id row ≠ b)
        ∧ (∀ r row, reviews st !! r = Some row → business_id row = b →
             get_review_by_id r st' = (Response ERROR_REVIEW_NOT_FOUND 404, st'))
  end.
Proof.
  rewrite delete_business_eq.
  destruct (businesses st !! b) as [row|] eqn:Hb; [|done].
  eexists; split; [done|]. unfold business_deleted. simpl.
  split; [apply lookup_delete_eq|]. split.
  - by intros r row' [_ ?]%map_lookup_filter_Some.
  - intros r row' Hr Hrb. rewrite get_review_by_id_eq. simpl.
    destruct (filter _ (reviews st) !! r) as [row''|] eqn:Hf; [|done].
    apply map_lookup_filter_Some in Hf as [Hr' Hne]. simpl in Hne.
    congruence.
Qed.

Lemma delete_business_cascades_witness :
  ∃ st', delete_business 1 store_example = (Response Empty 204, st')
    ∧ get_review_by_id 2 st' = (Response ERROR_REVIEW_NOT_FOUND 404, st').
Proof.
  pose proof (delete_business_cascades store_example 1) as H.
  change (businesses store_example !! 1) with (Some (business_example 10 "A")) in H.
  destruct H as (st' & Hd & _ & _ & Hget).
  exists st'. split; [exact Hd|].
  apply (Hget 2 {| user_id := 8; business_id := 1; stars := 5; review_text := "" |});
    reflexivity.
Defined.

(** C5, counterexample: PUT /reviews/1 with stars = 9 and no review_text
    on an existing review is not answered 200: the violation of ck_stars
    leaves the handler as an OperationalError, which Flask answers with
    500, and the review keeps its stars.  So does a DataError when the
    body has a review_text of 1001 characters. *)
Lemma edit_review_bad_stars_500 :
  edit_review 1 (Json (stars_body 9)) store_example
  = (Raised (OperationalError ER_CHECK_CONSTRAINT_VIOLATED), store_example)
  ∧ status_of (Raised (OperationalError ER_CHECK_CONSTRAINT_VIOLATED)) = 500
  ∧ edit_review 1 (Json {| j_user_id := None; j_business_id := None;
                           j_stars := Some 4; j_review_text := Some text_1001 |})
      store_example
    = (Raised (DataError (ER_DATA_TOO_LONG "review_text")), store_example)
  ∧ ¬ edit_review_always_200.
Proof.
  split; [reflexivity|]. split; [reflexivity|]. split; [by vm_compute|].
  intros H.
  specialize (H store_example 1 _
                (stars_body 9) 9
                eq_refl eq_refl eq_refl).
  discriminate H.
Qed.

(** C5, amended: for an existing review r and a PUT /reviews/{r} whose
    body has stars within 0..5 and, if it has a review_text, one of at
    most 1000 characters, the answer is 200 with the updated review;
    afterwards the stars of r are the submitted value, its review_text is
    the submitted text if the body has one and the former text otherwise,
    its user_id and business_id are the former ones, and every other review
    and every business is as before. *)
Theorem edit_review_overwrites st r old content s :
  reviews st !! r = Some old →
  j_stars content = Some s →
  0 ≤ s ≤ 5 →
  (∀ t, j_review_text content = Some t → fits_VARCHAR 1000 t) →
  ∃ st' new,
    edit_review r (Json content) st
    = (Response (Review (row_to_review_dict (r, new))) 200, st')
    ∧ reviews st' !! r = Some new
    ∧ stars new = s
    ∧ user_id new = user_id old
    ∧ business_id new = business_id old
    ∧ (j_review_text content = None → review_text new = review_text old)
    ∧ (∀ t, j_review_text content = Some t → review_text new = t)
    ∧ (∀ r', r' ≠ r → reviews st' !! r' = reviews st !! r')
    ∧ businesses st' = businesses st.
Proof.
  intros Hold Hs Hin Ht.
  rewrite (edit_review_eq _ _ _ _ Hs), Hold.
  rewrite (review_update_columns_fits s (j_review_text content))
    by (done || unfold fits_INT; lia).
  apply ck_stars_true in Hin. rewrite Hin. cbn zeta.
  eexists _, _. split; [reflexivity|]. unfold review_stored, review_edited. simpl.
  split; [apply lookup_insert_eq|].
  repeat split; try done.
  - by intros ->.
  - by intros t ->.
  - intros r' Hne. by apply lookup_insert_ne.
Qed.

Lemma edit_review_overwrites_witness :
  ∃ st' new,
    edit_review 1 (Json (stars_body 2)) store_example
    = (Response (Review (row_to_review_dict (1, new))) 200, st')
    ∧ reviews st' !! 1 = Some new
    ∧ stars new = 2
    ∧ review_text new = "fine".
Proof.
  destruct (edit_review_overwrites store_example 1
              {| user_id := 7; business_id := 1; stars := 3; review_text := "fine" |}
              (stars_body 2) 2
              eq_refl eq_refl ltac:(lia) ltac:(done))
    as (st' & new & He & Hl & Hst & _ & _ & Ht & _).
  exists st', new. repeat split; try done. by apply Ht.
Defined.

(** C10: PUT /reviews/{id} with a body that is absent or does not parse
    as JSON, sent as application/json or not, is answered as with the
    empty object, by the 400 missing-attribute response and without a
    write, where POST /businesses, PUT /businesses/{id} and POST /reviews
    on such a body have [get_json] raise. *)
Theorem edit_review_silent_json py_int st id :
  get_json true (@NotJson review_json) = inr None
  ∧ get_json true (@Unparseable review_json) = inr None
  ∧ edit_review id NotJson st = edit_review id (Json empty_review_json) st
  ∧ edit_review id Unparseable st = edit_review id (Json empty_review_json) st
  ∧ edit_review id NotJson st = (bad_request MISSING_ATTRIBUTES 400, st)
  ∧ edit_review id Unparseable st = (bad_request MISSING_ATTRIBUTES 400, st)
  ∧ post_business py_int NotJson st = (Raised UnsupportedMediaType, st)
  ∧ post_business py_int Unparseable st = (Raised BadRequest, st)
  ∧ edit_business py_int id NotJson st = (Raised UnsupportedMediaType, st)
  ∧ edit_business py_int id Unparseable st = (Raised BadRequest, st)
  ∧ post_reviews NotJson st = (Raised UnsupportedMediaType, st)
  ∧ post_reviews Unparseable st = (Raised BadRequest, st).
Proof. repeat split. Qed.

(** What the except clauses of POST /reviews answer is never a 201. *)
Lemma post_reviews_except_not_201 e d :
  post_reviews_except e ≠ Response (Review d) 201.
Proof.
  unfold post_reviews_except. destruct e; try done. by destruct (_ || _).
Qed.

(** A review that POST /reviews has created is the one GET /reviews/{id}
    returns. *)
Lemma post_then_get_review st content d :
  (post_reviews (Json content) st).1 = Response (Review d) 201 →
  get_review_by_id (rd_id d) (post_reviews (Json content) st).2
  = (Response (Review d) 200, (post_reviews (Json content) st).2).
Proof.
  destruct content as [[u|] [bid|] [s|] t]; try done.
  rewrite post_reviews_eq. destruct (businesses st !! bid); [|done].
  destruct (review_columns _) as [e|row]; simpl;
    [intros H; by apply post_reviews_except_not_201 in H|].
  destruct (insert_review_row _ st) as [e|[st' n]] eqn:Hins; simpl;
    [intros H; by apply post_reviews_except_not_201 in H|].
  apply insert_review_row_inr in Hins as (_ & _ & _ & -> & ->).
  intros [= <-]. rewrite get_review_by_id_eq. simpl.
  by rewrite lookup_insert_eq.
Qed.
(** ** ORDER BY and GET /businesses *)

Section OrderBy.
Context {A : Type}.

#[local] Instance key_le_transitive : Transitive (@key_le A).
Proof. unfold key_le. intros x y z. lia. Qed.

#[local] Instance key_le_total : Total (@key_le A).
Proof. unfold key_le. intros x y. lia. Qed.

Lemma order_by_key_permutation (table : gmap Z A) :
  order_by_key table ≡ₚ map_to_list table.
Proof. apply merge_sort_Permutation. Qed.

Lemma elem_of_order_by_key (table : gmap Z A) k row :
  (k, row) ∈ order_by_key table ↔ table !! k = Some row.
Proof. by rewrite order_by_key_permutation, elem_of_map_to_list. Qed.

Lemma order_by_key_sorted (table : gmap Z A) :
  StronglySorted key_le (order_by_key table).
Proof. apply StronglySorted_merge_sort; apply _. Qed.

Lemma NoDup_order_by_key (table : gmap Z A) :
  NoDup (order_by_key table).*1.
Proof.
  rewrite order_by_key_permutation. apply NoDup_fst_map_to_list.
Qed.

(** Sorted by a key that no two rows share: the keys ascend strictly. *)
Lemma sorted_distinct_keys (rows : list (Z * A)) :
  StronglySorted key_le rows → NoDup rows.*1 →
  StronglySorted key_lt rows.
Proof.
  induction 1 as [|x rows Hs IH Hall]; intros Hnd; [constructor|].
  rewrite fmap_cons in Hnd. apply NoDup_cons in Hnd as [Hx Hnd].
  constructor; [by apply IH|].
  apply Forall_forall. intros y Hy.
  rewrite Forall_forall in Hall. specialize (Hall y Hy).
  unfold key_le in Hall. unfold key_lt.
  assert (x.1 ≠ y.1); [|lia].
  intros Heq. apply Hx. rewrite Heq. by apply list_elem_of_fmap_2.
Qed.

Lemma order_by_key_ascending (table : gmap Z A) :
  StronglySorted key_lt (order_by_key table).
Proof.
  apply sorted_distinct_keys;
    [apply order_by_key_sorted | apply NoDup_order_by_key].
Qed.
End OrderBy.

Lemma comprehension_length {A B : Type} (f : A → exn + B) rows bs :
  comprehension f rows = inr bs → length bs = length rows.
Proof.
  revert bs. induction rows as [|r rows IH]; intros bs; simpl.
  - by intros [= <-].
  - destruct (f r); [done|].
    destruct (comprehension f rows); [done|].
    intros [= <-]. simpl. f_equal. by apply IH.
Qed.

Lemma slice_to_take {A : Type} (stop : Z) (l : list A) :
  0 ≤ stop → slice_to stop l = take (Z.to_nat stop) l.
Proof.
  intros Hstop. unfold slice_to.
  destruct (stop <? 0) eqn:Hneg; [lia|].
  destruct (decide (stop ≤ Z.of_nat (length l))).
  - by rewrite Z.min_l.
  - rewrite Z.min_r by lia. rewrite Nat2Z.id.
    rewrite !take_ge; [done| |]; lia.
Qed.

Lemma slice_to_negative {A : Type} (stop : Z) (l : list A) :
  stop < 0 → (length l ≤ 1)%nat → slice_to stop l = [].
Proof.
  intros Hstop Hlen. unfold slice_to.
  destruct (stop <? 0) eqn:Hneg; [|lia].
  rewrite Z.max_l by lia. done.
Qed.

(** What [get_businesses] computes once limit and offset are known. *)
Lemma get_businesses_eq py_int l o st :
  get_businesses py_int (Some l) (Some o) st =
  let rows := select_businesses_page (Z.max 0 l + 1) (Z.max 0 o) st in
  match comprehension (row_to_business_dict py_int) (slice_to l rows) with
  | inl e => (Raised e, st)
  | inr entries =>
      (Response
         (Page entries
            (if Z.of_nat (length rows) >? l
             then Some (url_for_get_businesses (Z.max 0 o + l) l)
             else None)) 200, st)
  end.
Proof. reflexivity. Qed.

(** A negative offset is clamped to zero. *)
Lemma get_businesses_negative_offset py_int l o st :
  o < 0 →
  get_businesses py_int (Some l) (Some o) st
  = get_businesses py_int (Some l) (Some 0) st.
Proof.
  intros Ho. rewrite !get_businesses_eq. by rewrite (Z.max_l 0 o) by lia.
Qed.

(** A negative limit fetches one row, lists none and always links to a
    next page, with the negative limit as it was given. *)
Lemma get_businesses_negative_limit py_int l o st :
  l < 0 →
  get_businesses py_int (Some l) (Some o) st
  = (Response (Page [] (Some (url_for_get_businesses (Z.max 0 o + l) l))) 200, st).
Proof.
  intros Hl. rewrite get_businesses_eq. cbn zeta.
  rewrite slice_to_negative; [simpl| done |].
  - assert ((Z.of_nat (length (select_businesses_page (Z.max 0 l + 1) (Z.max 0 o) st)) >? l)
            = true) as ->; [|done].
    apply Z.gtb_lt. lia.
  - unfold select_businesses_page. rewrite length_take.
    rewrite Z.max_l by lia. change (Z.to_nat (0 + 1)) with 1%nat. lia.
Qed.

(** C4 (the code departs from the claim): on the empty store,
    GET /businesses?limit=-1&offset=0 is answered with a next link that
    carries offset=-1 and limit=-1, where GET /businesses?limit=0&offset=0
    is answered without a next link. *)
Theorem get_businesses_negative_limit_not_clamped py_int :
  get_businesses py_int (Some (-1)) (Some 0) empty_store
  = (Response (Page [] (Some (url_for_get_businesses (-1) (-1)))) 200, empty_store)
  ∧ get_businesses py_int (Some 0) (Some 0) empty_store
    = (Response (Page [] None) 200, empty_store).
Proof. split; reflexivity. Qed.

(** X23: when limit or offset is absent, GET /businesses is served as
    limit=3 and offset=0: four rows are fetched from the businesses in
    ascending order of business_id; if [int] reads the zip_code of the
    first three, the answer is 200 with these three at most as entries,
    and with a next link, to offset=3 and limit=3, exactly when four rows
    were fetched; if [int] raises on one of them, the handler raises. *)
Theorem get_businesses_default py_int st limit offset :
  limit = None ∨ offset = None →
  let sorted := order_by_key (businesses st) in
  let rows := select_businesses_page (3 + 1) 0 st in
  get_businesses py_int limit offset st = get_businesses py_int (Some 3) (Some 0) st
  ∧ rows = take 4 sorted
  ∧ StronglySorted key_lt sorted
  ∧ (∀ k row, (k, row) ∈ sorted ↔ businesses st !! k = Some row)
  ∧ match comprehension (row_to_business_dict py_int) (take 3 rows) with
    | inr entries =>
        get_businesses py_int limit offset st
        = (Response
             (Page entries
                (if bool_decide (3 < length rows)%nat
                 then Some (url_for_get_businesses (0 + 3) 3)
                 else None)) 200, st)
        ∧ (length entries ≤ 3)%nat
    | inl e => get_businesses py_int limit offset st = (Raised e, st)
    end.
Proof.
  intros Habsent. cbn zeta.
  assert (get_businesses py_int limit offset st
          = get_businesses py_int (Some 3) (Some 0) st) as Hdefault.
  { destruct Habsent as [-> | ->]; [done|]. by destruct limit. }
  split; [done|]. split; [done|].
  split; [apply order_by_key_ascending|].
  split; [apply elem_of_order_by_key|].
  rewrite Hdefault, get_businesses_eq. cbn zeta.
  change (Z.max 0 3 + 1) with (3 + 1). change (Z.max 0 0) with 0.
  rewrite slice_to_take by lia. change (Z.to_nat 3) with 3%nat.
  destruct (comprehension _ _) as [e|entries] eqn:Hc; [done|].
  split.
  - repeat f_equal.
    case_bool_decide as Hlen.
    + rewrite (proj2 (Z.gtb_lt _ _)) by lia. done.
    + destruct (_ >? 3) eqn:Hgt; [|done]. apply Z.gtb_lt in Hgt. lia.
  - apply comprehension_length in Hc. rewrite Hc, length_take. lia.
Qed.

Lemma get_businesses_default_witness :
  get_businesses decimal_int None (Some 7) store_example
  = (Response
       (Page
          [ {| bd_id := 1; bd_owner_id := 10; bd_name := "A";
               bd_street_address := "1 Main St"; bd_city := "Corvallis";
               bd_state := "OR"; bd_zip_code := 97330;
               bd_self := url_for_get_business_by_id 1 |};
            {| bd_id := 2; bd_owner_id := 10; bd_name := "B";
               bd_street_address := "1 Main St"; bd_city := "Corvallis";
               bd_state := "OR"; bd_zip_code := 97330;
               bd_self := url_for_get_business_by_id 2 |};
            {| bd_id := 3; bd_owner_id := 11; bd_name := "C";
               bd_street_address := "1 Main St"; bd_city := "Corvallis";
               bd_state := "OR"; bd_zip_code := 97330;
               bd_self := url_for_get_business_by_id 3 |} ]
          (Some (url_for_get_businesses 3 3))) 200, store_example).
Proof.
  pose proof (get_businesses_default decimal_int store_example None (Some 7)
                (or_introl eq_refl)) as (_ & _ & _ & _ & H).
  vm_compute in H. destruct H as [H _]. exact H.
Defined.

(** The page of a GET /businesses with a limit that is not negative. *)
Lemma get_businesses_page py_int l o st :
  0 ≤ l →
  let rows :=
    take (Z.to_nat l + 1)
      (drop (Z.to_nat (Z.max 0 o)) (order_by_key (businesses st))) in
  match comprehension (row_to_business_dict py_int) (take (Z.to_nat l) rows) with
  | inr entries =>
      get_businesses py_int (Some l) (Some o) st
      = (Response
           (Page entries
              (if bool_decide (Z.to_nat l < length rows)%nat
               then Some (url_for_get_businesses (Z.max 0 o + l) l)
               else None)) 200, st)
      ∧ (length entries ≤ Z.to_nat l)%nat
  | inl e => get_businesses py_int (Some l) (Some o) st = (Raised e, st)
  end.
Proof.
  intros Hl. cbn zeta. rewrite get_businesses_eq. cbn zeta.
  unfold select_businesses_page.
  rewrite (Z.max_r 0 l) by lia.
  replace (Z.to_nat (l + 1)) with (Z.to_nat l + 1)%nat by lia.
  rewrite slice_to_take by lia.
  destruct (comprehension _ _) as [e|entries] eqn:Hc; [done|].
  split.
  - repeat f_equal.
    case_bool_decide as Hlen.
    + rewrite (proj2 (Z.gtb_lt _ _)) by lia. done.
    + destruct (_ >? l) eqn:Hgt; [|done]. apply Z.gtb_lt in Hgt. lia.
  - apply comprehension_length in Hc. rewrite Hc, length_take. lia.
Qed.

(** ** The effect of each handler on the store *)

Lemma row_to_business_dict_raises py_int row e :
  row_to_business_dict py_int row = inl e → e = ValueError.
Proof.
  unfold row_to_business_dict. destruct (py_int _); [done|]. by intros [= <-].
Qed.

Lemma comprehension_raises py_int rows e :
  comprehension (row_to_business_dict py_int) rows = inl e → e = ValueError.
Proof.
  induction rows as [|r rows IH]; simpl; [done|].
  destruct (row_to_business_dict py_int r) eqn:Hr.
  - intros [= <-]. by eapply row_to_business_dict_raises.
  - destruct (comprehension _ rows); [|done]. intros [= <-]. by apply IH.
Qed.

Lemma business_parameters_complete content :
  truthy (has_required_fields content REQUIRED_BUSINESS_FIELDS) = false →
  ∃ row, business_parameters content = inr row.
Proof.
  destruct content as [[o|] [n|] [a|] [c|] [s|] [z|]]; simpl; try done.
  intros _. by eexists.
Qed.

Lemma business_parameters_inr content row :
  business_parameters content = inr row →
  truthy (has_required_fields content REQUIRED_BUSINESS_FIELDS) = false.
Proof.
  destruct content as [[o|] [n|] [a|] [c|] [s|] [z|]]; simpl; try done.
Qed.

Lemma post_business_eq py_int content row st :
  business_parameters content = inr row →
  post_business py_int (Json content) st =
  match business_columns row with
  | inl e => (Response (Error "Unable to create business") 500, st)
  | inr row' =>
      match row_to_business_dict py_int (next_business_id st, row') with
      | inr d => (Response (Business d) 201, business_inserted row' st)
      | inl e => (Raised e, business_inserted row' st)
      end
  end.
Proof.
  intros Hp. unfold post_business, get_json. cbv beta iota.
  rewrite (business_parameters_inr _ _ Hp). run_db. rewrite Hp. simpl.
  unfold insert_business. destruct (business_columns row) as [e|row']; simpl; [done|].
  unfold select_business. simpl. by rewrite lookup_insert_eq.
Qed.

Lemma edit_business_eq py_int id content row st :
  business_parameters content = inr row →
  edit_business py_int id (Json content) st =
  match businesses st !! id with
  | None => (Response ERROR_BUSINESS_NOT_FOUND 404, st)
  | Some _ =>
      match business_columns row with
      | inl e => (Raised e, st)
      | inr row' =>
          match row_to_business_dict py_int (id, row') with
          | inr d => (Response (Business d) 200, business_updated id row' st)
          | inl e => (Raised e, business_updated id row' st)
          end
      end
  end.
Proof.
  intros Hp. unfold edit_business, get_json. cbv beta iota.
  rewrite (business_parameters_inr _ _ Hp). run_db. unfold select_business.
  destruct (businesses st !! id) as [old|] eqn:Hold; simpl; [|done].
  rewrite Hp. simpl. unfold update_business. rewrite Hold.
  destruct (business_columns row) as [e|row']; simpl; [done|].
  rewrite lookup_alter_eq, Hold. simpl.
  by destruct (row_to_business_dict py_int (id, row')).
Qed.

Lemma get_business_by_id_eq py_int id st :
  get_business_by_id py_int id st =
  match businesses st !! id with
  | None => (Response ERROR_BUSINESS_NOT_FOUND 404, st)
  | Some row =>
      match row_to_business_dict py_int (id, row) with
      | inr d => (Response (Business d) 200, st)
      | inl e => (Raised e, st)
      end
  end.
Proof.
  unfold get_business_by_id. run_db. unfold select_business.
  destruct (businesses st !! id); simpl; [|done].
  by destruct (row_to_business_dict _ _).
Qed.

Lemma list_businesses_for_owner_eq py_int owner st :
  list_businesses_for_owner py_int owner st =
  match comprehension (row_to_business_dict py_int)
          (select_businesses_of_owner owner st) with
  | inr ds => (Response (Businesses ds) 200, st)
  | inl e => (Raised e, st)
  end.
Proof.
  unfold list_businesses_for_owner. run_db.
  by destruct (comprehension _ _).
Qed.


Lemma app_unchanged_or_status py_int req st :
  (app py_int req st).2 = st ∨ may_have_written (app py_int req st).1.
Proof.
  unfold may_have_written.
  destruct req as [|b|l o|id|owner|id b|id|b|id|uid|id b|id]; simpl.
  - by left.
  - destruct b as [| |content]; [by left|by left|].
    destruct (truthy (has_required_fields content REQUIRED_BUSINESS_FIELDS)) eqn:Hm.
    + left. unfold post_business, get_json. cbv beta iota. by rewrite Hm.
    + right. apply business_parameters_complete in Hm as [row Hrow].
      rewrite (post_business_eq _ _ _ _ Hrow).
      destruct (business_columns row) as [e|row']; [simpl; auto|].
      destruct (row_to_business_dict _ _) eqn:Hd; simpl; [|auto].
      apply row_to_business_dict_raises in Hd as ->. simpl. auto.
  - left. unfold get_businesses.
    destruct (match l with Some _ => _ | None => _ end) as [l' o'].
    unfold with_connect, query. simpl. by destruct (comprehension _ _).
  - left. rewrite get_business_by_id_eq.
    destruct (businesses st !! id); [|done]. by destruct (row_to_business_dict _ _).
  - left. rewrite list_businesses_for_owner_eq. by destruct (comprehension _ _).
  - destruct b as [| |content]; [by left|by left|].
    destruct (truthy (has_required_fields content REQUIRED_BUSINESS_FIELDS)) eqn:Hm.
    + left. unfold edit_business, get_json. cbv beta iota. by rewrite Hm.
    + apply business_parameters_complete in Hm as [row Hrow].
      rewrite (edit_business_eq _ _ _ _ _ Hrow).
      destruct (businesses st !! id); [|by left].
      destruct (business_columns row) as [e|row']; [by left|]. right.
      destruct (row_to_business_dict _ _) eqn:Hd; simpl; [|auto].
      apply row_to_business_dict_raises in Hd as ->. simpl. auto.
  - rewrite delete_business_eq. destruct (businesses st !! id); simpl; auto.
  - destruct b as [| |content]; [by left|by left|].
    destruct content as [[u|] [bid|] [s|] t]; try by left.
    rewrite post_reviews_eq. destruct (businesses st !! bid); [|by left].
    destruct (review_columns _) as [e|row]; [by left|].
    destruct (insert_review_row _ st) as [e|[st' n]]; simpl; auto.
  - left. rewrite get_review_by_id_eq. by destruct (reviews st !! id).
  - by left.
  - destruct b as [| |content]; [by left|by left|].
    destruct (j_stars content) as [s|] eqn:Hs.
    + rewrite (edit_review_eq _ _ _ _ Hs).
      destruct (reviews st !! id); [|by left].
      destruct (review_update_columns _ _) as [e|[s' t']]; [by left|].
      destruct (ck_stars s'); simpl; auto.
    + left. unfold edit_review. simpl.
      unfold has_key, review_json_object. simpl. by rewrite Hs.
  - rewrite delete_review_eq. destruct (reviews st !! id); simpl; auto.
Qed.

(** C9: whatever the request, an answer with status 400, 404 or 409 leaves
    the store as it was before the request. *)
Theorem error_response_leaves_store py_int req st :
  status_of (app py_int req st).1 = 400
  ∨ status_of (app py_int req st).1 = 404
  ∨ status_of (app py_int req st).1 = 409 →
  (app py_int req st).2 = st.
Proof.
  intros Hstatus.
  destruct (app_unchanged_or_status py_int req st) as [|Hw]; [done|].
  unfold may_have_written in Hw. lia.
Qed.

Lemma error_response_leaves_store_witness :
  status_of (app decimal_int (POST_reviews (Json (review_body 7 1 4 None)))
               store_example).1 = 409
  ∧ (app decimal_int (POST_reviews (Json (review_body 7 1 4 None))) store_example).2
    = store_example.
Proof.
  split; [reflexivity|].
  apply (error_response_leaves_store decimal_int
           (POST_reviews (Json (review_body 7 1 4 None))) store_example).
  right; right; reflexivity.
Defined.


(** C6 (the code departs from the claim): once POST /businesses has stored
    a business whose zip_code [int] does not read, which it does for any
    such text that fits CHAR(5), GET /businesses with limit or offset
    absent is not answered with a page at all: [row_to_business_dict]
    raises ValueError on the row and the client gets 500. *)
Theorem get_businesses_default_raises py_int row limit offset :
  business_fits row →
  py_int (zip_code row) = None →
  limit = None ∨ offset = None →
  let st := (post_business py_int (Json (business_body row)) empty_store).2 in
  businesses st !! 1 = Some row
  ∧ get_businesses py_int limit offset st = (Raised ValueError, st)
  ∧ status_of (get_businesses py_int limit offset st).1 = 500.
Proof.
  intros Hfits Hzip Habsent. cbn zeta.
  assert (business_parameters (business_body row) = inr row) as Hp by (by destruct row).
  rewrite (post_business_eq _ _ _ _ Hp), (business_columns_fits _ Hfits).
  assert (row_to_business_dict py_int (next_business_id empty_store, row)
          = inl ValueError) as ->.
  { unfold row_to_business_dict. simpl. by rewrite Hzip. }
  cbn [snd]. split; [done|].
  assert (get_businesses py_int limit offset (business_inserted row empty_store)
          = (Raised ValueError, business_inserted row empty_store)) as ->; [|done].
  assert (get_businesses py_int limit offset (business_inserted row empty_store)
          = get_businesses py_int (Some 3) (Some 0) (business_inserted row empty_store))
    as ->.
  { destruct Habsent as [-> | ->]; [done|]. by destruct limit. }
  rewrite get_businesses_eq. cbn zeta.
  assert (select_businesses_page (Z.max 0 3 + 1) (Z.max 0 0)
            (business_inserted row empty_store) = [(1, row)]) as -> by reflexivity.
  simpl. unfold row_to_business_dict. simpl. by rewrite Hzip.
Qed.

Lemma get_businesses_default_raises_witness :
  let row := {| owner_id := 1; name := "A"; street_address := "S";
                city := "C"; state := "OR"; zip_code := "9733x" |} in
  (serve decimal_int
     [POST_businesses (Json (business_body row)); GET_businesses None None]
     empty_store).1
  = [Raised ValueError; Raised ValueError].
Proof.
  cbn zeta.
  destruct (get_businesses_default_raises decimal_int
              {| owner_id := 1; name := "A"; street_address := "S";
                 city := "C"; state := "OR"; zip_code := "9733x" |} None None)
    as (_ & Hget & _).
  - solve_fits.
  - reflexivity.
  - by left.
  - cbn zeta in Hget. simpl serve.
    destruct (post_business decimal_int _ empty_store) as [r st'] eqn:Hpost.
    simpl in Hget. rewrite Hget.
    by vm_compute in Hpost; injection Hpost as <- <-.
Defined.
(** ** Repeated DELETE *)

Lemma no_new_keys_refl st : no_new_keys st st.
Proof. by split. Qed.

Lemma no_new_keys_of_eq st st' : st' = st → no_new_keys st st'.
Proof. intros ->. apply no_new_keys_refl. Qed.

(** A request that is not a creation adds no key to either table. *)
Lemma app_no_new_keys py_int req st :
  is_creation req = false → no_new_keys st (app py_int req st).2.
Proof.
  intros Hreq.
  destruct (app_unchanged_or_status py_int req st) as [Heq|_];
    [by apply no_new_keys_of_eq|].
  destruct req as [|b|l o|id|owner|id b|id|b|id|uid|id b|id]; simpl in Hreq |- *;
    try done; try (by apply no_new_keys_refl).
  - unfold get_businesses.
    destruct (match l with Some _ => _ | None => _ end) as [l' o'].
    unfold with_connect, query. simpl.
    destruct (comprehension _ _); apply no_new_keys_refl.
  - rewrite get_business_by_id_eq.
    destruct (businesses st !! id); [|apply no_new_keys_refl].
    destruct (row_to_business_dict _ _); apply no_new_keys_refl.
  - rewrite list_businesses_for_owner_eq.
    destruct (comprehension _ _); apply no_new_keys_refl.
  - destruct b as [| |content]; [apply no_new_keys_refl|apply no_new_keys_refl|].
    destruct (truthy (has_required_fields content REQUIRED_BUSINESS_FIELDS)) eqn:Hm.
    + unfold edit_business, get_json. cbv beta iota. rewrite Hm. apply no_new_keys_refl.
    + apply business_parameters_complete in Hm as [row Hrow].
      rewrite (edit_business_eq _ _ _ _ _ Hrow).
      destruct (businesses st !! id) eqn:Hid; [|apply no_new_keys_refl].
      destruct (business_columns row) as [e|row']; [apply no_new_keys_refl|].
      assert (no_new_keys st (business_updated id row' st)) as Hnew.
      { split; [|done]. intros id' Hnone. simpl.
        rewrite lookup_alter. case_decide; [subst; by rewrite Hnone|done]. }
      by destruct (row_to_business_dict _ _).
  - rewrite delete_business_eq.
    destruct (businesses st !! id); [|apply no_new_keys_refl].
    split; simpl; intros id' Hnone.
    + rewrite lookup_delete. case_decide; done.
    + apply map_lookup_filter_None. by left.
  - rewrite get_review_by_id_eq.
    destruct (reviews st !! id); apply no_new_keys_refl.
  - destruct b as [| |content]; [apply no_new_keys_refl|apply no_new_keys_refl|].
    destruct (j_stars content) as [s|] eqn:Hs.
    + rewrite (edit_review_eq _ _ _ _ Hs).
      destruct (reviews st !! id) eqn:Hid; [|apply no_new_keys_refl].
      destruct (review_update_columns _ _) as [e|[s' t']]; [apply no_new_keys_refl|].
      destruct (ck_stars s'); [|apply no_new_keys_refl].
      split; [done|]. simpl. intros id' Hnone.
      rewrite lookup_insert_ne; [done|]. congruence.
    + unfold edit_review. simpl.
      unfold has_key, review_json_object. simpl. rewrite Hs. apply no_new_keys_refl.
  - rewrite delete_review_eq.
    destruct (reviews st !! id); [|apply no_new_keys_refl].
    split; [done|]. simpl. intros id' Hnone.
    rewrite lookup_delete. case_decide; done.
Qed.

Lemma serve_cons py_int req reqs st :
  serve py_int (req :: reqs) st =
  ((app py_int req st).1 :: (serve py_int reqs (app py_int req st).2).1,
   (serve py_int reqs (app py_int req st).2).2).
Proof.
  simpl. destruct (app py_int req st) as [r st']. simpl.
  by destruct (serve py_int reqs st').
Qed.

(** Once the business is gone, no DELETE of it is answered 2xx as long as
    nothing is created. *)
Lemma no_delete_business_of_absent py_int reqs st id :
  Forall (λ req, is_creation req = false) reqs →
  businesses st !! id = None →
  count_2xx (deletes_business id) reqs (serve py_int reqs st).1 = 0%nat.
Proof.
  intros Hreqs. revert st.
  induction Hreqs as [|req reqs Hreq _ IH]; intros st Hnone; [done|].
  rewrite serve_cons. simpl.
  rewrite IH by (by apply (app_no_new_keys py_int req st Hreq)).
  destruct req; simpl; try done.
  case_bool_decide as Hid; [subst|done].
  by rewrite delete_business_eq, Hnone.
Qed.

Lemma no_delete_review_of_absent py_int reqs st id :
  Forall (λ req, is_creation req = false) reqs →
  reviews st !! id = None →
  count_2xx (deletes_review id) reqs (serve py_int reqs st).1 = 0%nat.
Proof.
  intros Hreqs. revert st.
  induction Hreqs as [|req reqs Hreq _ IH]; intros st Hnone; [done|].
  rewrite serve_cons. simpl.
  rewrite IH by (by apply (app_no_new_keys py_int req st Hreq)).
  destruct req; simpl; try done.
  case_bool_decide as Hid; [subst|done].
  by rewrite delete_review_eq, Hnone.
Qed.

(** C8: DELETE of a business or of a review that the store does not have
    (one that was deleted before included) is answered 404 and changes
    nothing; and in a sequence of requests none of which creates a row,
    at most one DELETE of a given business, and at most one DELETE of a
    given review, is answered 2xx. *)
Theorem delete_at_most_once py_int :
  (∀ st id, businesses st !! id = None →
     delete_business id st = (Response ERROR_BUSINESS_NOT_FOUND 404, st))
  ∧ (∀ st id, reviews st !! id = None →
     delete_review id st = (Response ERROR_REVIEW_NOT_FOUND 404, st))
  ∧ (∀ st id,
       delete_business id (delete_business id st).2
       = (Response ERROR_BUSINESS_NOT_FOUND 404, (delete_business id st).2)
       ∧ delete_review id (delete_review id st).2
         = (Response ERROR_REVIEW_NOT_FOUND 404, (delete_review id st).2))
  ∧ (∀ reqs st id,
       Forall (λ req, is_creation req = false) reqs →
       (count_2xx (deletes_business id) reqs (serve py_int reqs st).1 ≤ 1)%nat
       ∧ (count_2xx (deletes_review id) reqs (serve py_int reqs st).1 ≤ 1)%nat).
Proof.
  split; [|split; [|split]].
  - intros st id Hnone. by rewrite delete_business_eq, Hnone.
  - intros st id Hnone. by rewrite delete_review_eq, Hnone.
  - intros st id. split.
    + rewrite (delete_business_eq id st).
      destruct (businesses st !! id) eqn:Hid; simpl.
      * rewrite delete_business_eq. simpl. by rewrite lookup_delete_eq.
      * by rewrite delete_business_eq, Hid.
    + rewrite (delete_review_eq id st).
      destruct (reviews st !! id) eqn:Hid; simpl.
      * rewrite delete_review_eq. simpl. by rewrite lookup_delete_eq.
      * by rewrite delete_review_eq, Hid.
  - intros reqs st id Hreqs. revert st.
    induction Hreqs as [|req reqs Hreq Hreqs IH]; intros st; [simpl; lia|].
    rewrite serve_cons. simpl.
    destruct (IH (app py_int req st).2) as [IHb IHr].
    split.
    + destruct (deletes_business id req && is_2xx (app py_int req st).1) eqn:Hd;
        [|simpl; lia].
      apply andb_true_iff in Hd as [Hd H2xx].
      destruct req; simpl in Hd; try done.
      apply bool_decide_eq_true in Hd as ->.
      rewrite (no_delete_business_of_absent py_int reqs _ id Hreqs); [lia|].
      simpl in *. rewrite delete_business_eq in *.
      destruct (businesses st !! id); [|done]. simpl. apply lookup_delete_eq.
    + destruct (deletes_review id req && is_2xx (app py_int req st).1) eqn:Hd;
        [|simpl; lia].
      apply andb_true_iff in Hd as [Hd H2xx].
      destruct req; simpl in Hd; try done.
      apply bool_decide_eq_true in Hd as ->.
      rewrite (no_delete_review_of_absent py_int reqs _ id Hreqs); [lia|].
      simpl in *. rewrite delete_review_eq in *.
      destruct (reviews st !! id); [|done]. simpl. apply lookup_delete_eq.
Qed.

Lemma delete_at_most_once_witness :
  delete_business 9 store_example
  = (Response ERROR_BUSINESS_NOT_FOUND 404, store_example)
  ∧ (count_2xx (deletes_business 1)
       [DELETE_business 1; GET_review 1; DELETE_business 1; DELETE_business 1]
       (serve decimal_int
          [DELETE_business 1; GET_review 1; DELETE_business 1; DELETE_business 1]
          store_example).1 ≤ 1)%nat.
Proof.
  destruct (delete_at_most_once decimal_int) as (Hb & _ & _ & Hcount).
  split.
  - apply Hb. reflexivity.
  - apply Hcount. repeat constructor.
Defined.

(** ** The constraints of the tables hold in every store the application
    reaches *)

Lemma app_store_step py_int req st : store_step st (app py_int req st).2.
Proof.
  destruct req as [|b|l o|id|owner|id b|id|b|id|uid|id b|id]; simpl.
  - constructor.
  - destruct b as [| |content]; [constructor|constructor|].
    destruct (truthy (has_required_fields content REQUIRED_BUSINESS_FIELDS)) eqn:Hm.
    + unfold post_business, get_json. cbv beta iota. rewrite Hm. constructor.
    + apply business_parameters_complete in Hm as [row Hrow].
      rewrite (post_business_eq _ _ _ _ Hrow).
      destruct (business_columns row) as [e|row']; [constructor|].
      destruct (row_to_business_dict _ _); constructor.
  - unfold get_businesses.
    destruct (match l with Some _ => _ | None => _ end) as [l' o'].
    unfold with_connect, query. simpl. destruct (comprehension _ _); constructor.
  - rewrite get_business_by_id_eq.
    destruct (businesses st !! id); [|constructor].
    destruct (row_to_business_dict _ _); constructor.
  - rewrite list_businesses_for_owner_eq. destruct (comprehension _ _); constructor.
  - destruct b as [| |content]; [constructor|constructor|].
    destruct (truthy (has_required_fields content REQUIRED_BUSINESS_FIELDS)) eqn:Hm.
    + unfold edit_business, get_json. cbv beta iota. rewrite Hm. constructor.
    + apply business_parameters_complete in Hm as [row Hrow].
      rewrite (edit_business_eq _ _ _ _ _ Hrow).
      destruct (businesses st !! id) eqn:Hid; [|constructor].
      destruct (business_columns row) as [e|row']; [constructor|].
      destruct (row_to_business_dict _ _); by constructor.
  - rewrite delete_business_eq. destruct (businesses st !! id); constructor.
  - destruct b as [| |content]; [constructor|constructor|].
    destruct content as [[u|] [bid|] [s|] t]; try constructor.
    rewrite post_reviews_eq. destruct (businesses st !! bid); [|constructor].
    destruct (review_columns _) as [e|row]; [constructor|].
    destruct (insert_review_row _ st) as [e|[st' n]] eqn:Hins; simpl; [constructor|].
    apply insert_review_row_inr in Hins as (? & ? & ? & _ & ->). by constructor.
  - rewrite get_review_by_id_eq. destruct (reviews st !! id); constructor.
  - constructor.
  - destruct b as [| |content]; [constructor|constructor|].
    destruct (j_stars content) as [s|] eqn:Hs.
    + rewrite (edit_review_eq _ _ _ _ Hs).
      destruct (reviews st !! id) eqn:Hid; [|constructor].
      destruct (review_update_columns _ _) as [e|[s' t']]; [constructor|].
      destruct (ck_stars s') eqn:Hck; [|constructor]. by econstructor.
    + unfold edit_review. simpl.
      unfold has_key, review_json_object. simpl. rewrite Hs. constructor.
  - rewrite delete_review_eq. destruct (reviews st !! id); constructor.
Qed.

Lemma wf_create_tables db : (∀ st, db = Some st → wf_store st) → wf_store (create_tables db).
Proof.
  destruct db as [st|]; simpl; [by auto|]. intros _.
  split; simpl; intros *; rewrite ?lookup_empty; try done;
    by intros [? ?].
Qed.

(** Creating the tables of a database that has them changes nothing. *)
Lemma create_tables_idempotent db :
  create_tables (Some (create_tables db)) = create_tables db.
Proof. done. Qed.

Lemma uq_user_business_false u b rs id row :
  uq_user_business u b rs = false → rs !! id = Some row →
  user_id row = u → business_id row = b → False.
Proof.
  intros Huq Hrow Hu Hb.
  assert (uq_user_business u b rs = true); [|congruence].
  apply uq_user_business_true. eauto.
Qed.

Lemma store_step_wf st st' : store_step st st' → wf_store st → wf_store st'.
Proof.
  intros Hstep [Hck Hfk Huq Hbk Hrk].
  destruct Hstep as [|row|id row Hid|id|row Hrck Hruq Hrfk|id old s t Hold Hs|id].
  - done.
  - split; simpl; try done.
    + intros id row' Hrow'. apply lookup_insert_is_Some'. eauto.
    + intros id [Heq|His]%lookup_insert_is_Some'; [lia|].
      specialize (Hbk _ His). lia.
  - split; simpl; try done.
    + intros id' row' Hrow'. apply lookup_alter_is_Some. eauto.
    + intros id' His%lookup_alter_is_Some. eauto.
  - split; simpl.
    + intros id' row' [Hrow' _]%map_lookup_filter_Some. eauto.
    + intros id' row' [Hrow' Hne]%map_lookup_filter_Some. simpl in Hne.
      rewrite lookup_delete_ne by done. eauto.
    + intros id1 id2 row1 row2 [H1 _]%map_lookup_filter_Some
        [H2 _]%map_lookup_filter_Some. eauto.
    + intros id' [row' [_ Hrow']%lookup_delete_Some]. eauto.
    + intros id' [row' [Hrow' _]%map_lookup_filter_Some]. eauto.
  - split; simpl; try done.
    + intros id row' [[_ <-]|[_ Hrow']]%lookup_insert_Some; eauto.
    + intros id row' [[_ <-]|[_ Hrow']]%lookup_insert_Some; eauto.
    + intros id1 id2 row1 row2
        [[<- <-]|[Hne1 H1]]%lookup_insert_Some
        [[<- <-]|[Hne2 H2]]%lookup_insert_Some Hu Hb; try done.
      * exfalso. by eapply (uq_user_business_false _ _ _ id2 row2).
      * exfalso. by eapply (uq_user_business_false _ _ _ id1 row1).
      * eauto.
    + intros id [Heq|His]%lookup_insert_is_Some'; [lia|].
      specialize (Hrk _ His). lia.
  - split; simpl; try done.
    + intros id' row' [[_ <-]|[_ Hrow']]%lookup_insert_Some; eauto.
    + intros id' row' [[_ <-]|[_ Hrow']]%lookup_insert_Some; simpl; eauto.
    + intros id1 id2 row1 row2
        [[<- <-]|[Hne1 H1]]%lookup_insert_Some
        [[<- <-]|[Hne2 H2]]%lookup_insert_Some Hu Hb; simpl in *; eauto.
    + intros id' [Heq|His]%lookup_insert_is_Some'; [subst|]; eauto.
  - split; simpl; try done.
    + intros id' row' [_ Hrow']%lookup_delete_Some. eauto.
    + intros id' row' [_ Hrow']%lookup_delete_Some. eauto.
    + intros id1 id2 row1 row2 [_ H1]%lookup_delete_Some
        [_ H2]%lookup_delete_Some. eauto.
    + intros id' [row' [_ Hrow']%lookup_delete_Some]. eauto.
Qed.

(** Every request preserves the constraints of the tables. *)
Lemma app_wf py_int req st : wf_store st → wf_store (app py_int req st).2.
Proof. apply store_step_wf, app_store_step. Qed.

Lemma serve_wf py_int reqs st : wf_store st → wf_store (serve py_int reqs st).2.
Proof.
  revert st. induction reqs as [|req reqs IH]; intros st Hwf; [done|].
  rewrite serve_cons. simpl. by apply IH, app_wf.
Qed.

(** On a store that satisfies its constraints, a review that POST /reviews
    creates gets a key no review had, and every other review stays. *)
Lemma post_reviews_fresh_key st content d :
  wf_store st →
  (post_reviews (Json content) st).1 = Response (Review d) 201 →
  reviews st !! rd_id d = None
  ∧ ∀ id' row', reviews st !! id' = Some row' →
      reviews (post_reviews (Json content) st).2 !! id' = Some row'.
Proof.
  intros Hwf.
  destruct content as [[u|] [bid|] [s|] t]; try done.
  rewrite post_reviews_eq. destruct (businesses st !! bid); [|done].
  destruct (review_columns _) as [e|row]; simpl;
    [intros H; by apply post_reviews_except_not_201 in H|].
  destruct (insert_review_row _ st) as [e|[st' n]] eqn:Hins; simpl.
  - intros H; by apply post_reviews_except_not_201 in H.
  - apply insert_review_row_inr in Hins as (_ & _ & _ & -> & ->).
    intros [= <-]. simpl.
    assert (reviews st !! next_review_id st = None) as Hfresh.
    { destruct (reviews st !! next_review_id st) eqn:Hl; [|done].
      pose proof (wf_review_keys st Hwf (next_review_id st) (mk_is_Some _ _ Hl)). lia. }
    split; [done|]. intros id' row' Hrow'.
    rewrite lookup_insert_ne; [done|]. congruence.
Qed.

(** The store of the examples is one the application reaches from the
    empty store, and so satisfies the constraints. *)
Lemma store_example_reached :
  (serve decimal_int requests_example empty_store).2 = store_example.
Proof. vm_compute. reflexivity. Qed.

Lemma wf_store_example : wf_store store_example.
Proof.
  rewrite <- store_example_reached.
  apply serve_wf, (wf_create_tables None). done.
Qed.

(** * Further properties of the handlers *)

(** ** Validation of the body *)

(** X1: [has_required_fields] reports no field exactly when the body has
    every required field; a field it reports is a required field that the
    body lacks; and whether it reports one does not depend on the order in
    which the required fields are visited. *)
Theorem has_required_fields_reports_missing {A : Type} `{JsonObject A}
    (data : A) (fields : list string) :
  (has_required_fields data fields = None
   ↔ ∀ field, field ∈ fields → has_key field data = true)
  ∧ (∀ field, has_required_fields data fields = Some field →
       field ∈ fields ∧ has_key field data = false)
  ∧ (∀ fields', fields ≡ₚ fields' →
       (has_required_fields data fields = None
        ↔ has_required_fields data fields' = None)).
Proof.
  split; [|split].
  - by rewrite has_required_fields_None, Forall_forall.
  - apply has_required_fields_Some.
  - apply has_required_fields_permutation.
Qed.

Lemma has_required_fields_reports_missing_witness :
  has_required_fields (stars_body 4) ["stars"; "user_id"] = Some "user_id"
  ∧ "user_id" ∈ ["stars"; "user_id"]
  ∧ has_key "user_id" (stars_body 4) = false.
Proof.
  destruct (has_required_fields_reports_missing (stars_body 4) ["stars"; "user_id"])
    as (_ & Hsome & _).
  split; [reflexivity|]. apply Hsome. reflexivity.
Defined.

(** X2: POST /businesses and PUT /businesses/{id} with a body that lacks
    any one of the six required members are answered 400 with the
    missing-attribute message, whichever member it is and whether or not
    the business exists, and write nothing. *)
Theorem business_missing_field_400 py_int st id content :
  j_owner_id content = None ∨ j_name content = None
  ∨ j_street_address content = None ∨ j_city content = None
  ∨ j_state content = None ∨ j_zip_code content = None →
  post_business py_int (Json content) st = (bad_request MISSING_ATTRIBUTES 400, st)
  ∧ edit_business py_int id (Json content) st
    = (bad_request MISSING_ATTRIBUTES 400, st).
Proof.
  intros Hmissing.
  destruct content as [[o|] [n|] [a|] [c|] [s|] [z|]]; simpl in Hmissing;
    try (split; reflexivity).
  destruct Hmissing as [?|[?|[?|[?|[?|?]]]]]; discriminate.
Qed.

Lemma business_missing_field_400_witness :
  post_business decimal_int
    (Json {| j_owner_id := Some 1; j_name := Some "A"; j_street_address := Some "S";
             j_city := None; j_state := Some "OR"; j_zip_code := Some "97330" |})
    store_example
  = (bad_request MISSING_ATTRIBUTES 400, store_example).
Proof.
  apply (proj1 (business_missing_field_400 decimal_int store_example 99
           {| j_owner_id := Some 1; j_name := Some "A"; j_street_address := Some "S";
              j_city := None; j_state := Some "OR"; j_zip_code := Some "97330" |}
           ltac:(right; right; right; left; reflexivity))).
Defined.

(** X3: POST /reviews with a body that lacks user_id, business_id or
    stars is answered 400 with the missing-attribute message before the
    business is looked up, and PUT /reviews/{id} with a body that lacks
    stars is answered so before the review is looked up; nothing is
    written. *)
Theorem review_missing_field_400 st id content :
  (j_user_id content = None ∨ j_business_id content = None
   ∨ j_stars content = None →
   post_reviews (Json content) st = (bad_request MISSING_ATTRIBUTES 400, st))
  ∧ (j_stars content = None →
     edit_review id (Json content) st = (bad_request MISSING_ATTRIBUTES 400, st)).
Proof.
  split.
  - intros Hmissing.
    destruct content as [[u|] [b|] [s|] t]; simpl in Hmissing; try reflexivity.
    destruct Hmissing as [?|[?|?]]; discriminate.
  - intros Hs. destruct content as [u b s t]. simpl in Hs. subst s.
    by destruct u, b, t.
Qed.

Lemma review_missing_field_400_witness :
  businesses store_example !! 77 = None
  ∧ post_reviews (Json {| j_user_id := Some 7; j_business_id := Some 77;
                          j_stars := None; j_review_text := None |}) store_example
    = (bad_request MISSING_ATTRIBUTES 400, store_example)
  ∧ reviews store_example !! 99 = None
  ∧ edit_review 99 (Json empty_review_json) store_example
    = (bad_request MISSING_ATTRIBUTES 400, store_example).
Proof.
  split; [reflexivity|]. split.
  - apply (proj1 (review_missing_field_400 store_example 0
                    {| j_user_id := Some 7; j_business_id := Some 77;
                       j_stars := None; j_review_text := None |})).
    right; right; reflexivity.
  - split; [reflexivity|].
    apply (proj2 (review_missing_field_400 store_example 99 empty_review_json)).
    reflexivity.
Defined.

(** ** Businesses *)

Lemma business_parameters_body row :
  business_parameters (business_body row) = inr row.
Proof. by destruct row. Qed.

(** X4: POST /businesses with the six members, when [int] reads the
    zip_code, is answered 201 with the representation of the new row: its
    id is the key AUTO_INCREMENT generates, its members are the submitted
    ones and its self link is the URL of that id; GET on the self link is
    then answered 200 with the same representation.  No other business
    and no review changes, and on a store that satisfies the constraints
    the key was free.  The members are such as the columns hold: a 32-bit
    owner_id, a name and a city of at most 50 characters, a
    street_address of at most 100, a state of at most 2 and a zip_code of
    at most 5 that do not end in a space. *)
Theorem post_business_round_trip py_int st row zip :
  business_fits row →
  py_int (zip_code row) = Some zip →
  ∃ d st',
    post_business py_int (Json (business_body row)) st
    = (Response (Business d) 201, st')
    ∧ bd_id d = next_business_id st
    ∧ bd_self d = url_for_get_business_by_id (bd_id d)
    ∧ (bd_owner_id d, bd_name d, bd_street_address d, bd_city d, bd_state d)
      = (owner_id row, name row, street_address row, city row, state row)
    ∧ bd_zip_code d = zip
    ∧ app py_int (GET_url (bd_self d)) st' = (Response (Business d) 200, st')
    ∧ (∀ id, id ≠ bd_id d → businesses st' !! id = businesses st !! id)
    ∧ reviews st' = reviews st
    ∧ (wf_store st → businesses st !! bd_id d = None).
Proof.
  intros Hfits Hzip.
  rewrite (post_business_eq _ _ _ _ (business_parameters_body row)).
  rewrite (business_columns_fits _ Hfits).
  unfold row_to_business_dict. simpl. rewrite Hzip.
  eexists _, _. split; [reflexivity|]. simpl.
  repeat split.
  - rewrite get_business_by_id_eq. simpl. rewrite lookup_insert_eq.
    unfold row_to_business_dict. simpl. by rewrite Hzip.
  - intros id Hne. by rewrite lookup_insert_ne.
  - intros Hwf. destruct (businesses st !! next_business_id st) eqn:Hl; [|done].
    pose proof (wf_business_keys st Hwf _ (mk_is_Some _ _ Hl)). lia.
Qed.

Lemma post_business_round_trip_witness :
  ∃ d st',
    post_business decimal_int (Json (business_body (business_example 13 "E")))
      store_example
    = (Response (Business d) 201, st')
    ∧ bd_id d = 5
    ∧ bd_zip_code d = 97330
    ∧ app decimal_int (GET_url (bd_self d)) st' = (Response (Business d) 200, st').
Proof.
  destruct (post_business_round_trip decimal_int store_example
              (business_example 13 "E") 97330 ltac:(solve_fits) eq_refl)
    as (d & st' & Hpost & Hid & _ & _ & Hzip & Hget & _).
  exists d, st'. done.
Defined.

(** X5: POST /businesses with the six members, such as the columns hold,
    and a zip_code on which [int] raises commits the row and then raises:
    the client is answered 500, the business is in the store, and
    GET /businesses/{id} of it raises as well. *)
Theorem post_business_unreadable_zip py_int st row :
  business_fits row →
  py_int (zip_code row) = None →
  ∃ st',
    post_business py_int (Json (business_body row)) st = (Raised ValueError, st')
    ∧ status_of (Raised ValueError) = 500
    ∧ businesses st' !! next_business_id st = Some row
    ∧ get_business_by_id py_int (next_business_id st) st' = (Raised ValueError, st').
Proof.
  intros Hfits Hzip.
  rewrite (post_business_eq _ _ _ _ (business_parameters_body row)).
  rewrite (business_columns_fits _ Hfits).
  unfold row_to_business_dict. simpl. rewrite Hzip.
  eexists. split; [reflexivity|]. split; [done|]. simpl.
  split; [apply lookup_insert_eq|].
  rewrite get_business_by_id_eq. simpl. rewrite lookup_insert_eq.
  unfold row_to_business_dict. simpl. by rewrite Hzip.
Qed.

Lemma post_business_unreadable_zip_witness :
  ∃ st',
    post_business decimal_int
      (Json (business_body {| owner_id := 1; name := "A"; street_address := "S";
                              city := "C"; state := "OR"; zip_code := "9733x" |}))
      empty_store
    = (Raised ValueError, st')
    ∧ is_Some (businesses st' !! 1).
Proof.
  destruct (post_business_unreadable_zip decimal_int empty_store
              {| owner_id := 1; name := "A"; street_address := "S";
                 city := "C"; state := "OR"; zip_code := "9733x" |}
              ltac:(solve_fits) eq_refl)
    as (st' & Hpost & _ & Hrow & _).
  exists st'. split; [exact Hpost|]. by eexists.
Defined.

(** X6: PUT /businesses/{id} with the six members is answered 404, with
    nothing written, when the store has no business id; when it has one,
    the members are such as the columns hold
    and [int] reads the new zip_code, it is answered 200 with the
    representation of the submitted row under the same id, the row of id
    is the submitted one, and every other business, every review and both
    counters are as before. *)
Theorem edit_business_replaces py_int st id row :
  (businesses st !! id = None →
   edit_business py_int id (Json (business_body row)) st
   = (Response ERROR_BUSINESS_NOT_FOUND 404, st))
  ∧ (is_Some (businesses st !! id) →
     business_fits row →
     ∀ zip, py_int (zip_code row) = Some zip →
     ∃ d st',
       edit_business py_int id (Json (business_body row)) st
       = (Response (Business d) 200, st')
       ∧ row_to_business_dict py_int (id, row) = inr d
       ∧ businesses st' !! id = Some row
       ∧ (∀ id', id' ≠ id → businesses st' !! id' = businesses st !! id')
       ∧ reviews st' = reviews st
       ∧ next_business_id st' = next_business_id st
       ∧ next_review_id st' = next_review_id st).
Proof.
  rewrite (edit_business_eq _ _ _ _ _ (business_parameters_body row)).
  split.
  - by intros ->.
  - intros [old Hold] Hfits zip Hzip. rewrite Hold.
    rewrite (business_columns_fits _ Hfits).
    unfold row_to_business_dict. simpl. rewrite Hzip.
    eexists _, _. split; [reflexivity|]. simpl.
    split; [done|]. split; [by rewrite lookup_alter_eq, Hold|].
    split; [|done]. intros id' Hne. by rewrite lookup_alter_ne.
Qed.

Lemma edit_business_replaces_witness :
  edit_business decimal_int 9 (Json (business_body (business_example 13 "E")))
    store_example
  = (Response ERROR_BUSINESS_NOT_FOUND 404, store_example)
  ∧ ∃ d st',
      edit_business decimal_int 2 (Json (business_body (business_example 13 "E")))
        store_example
      = (Response (Business d) 200, st')
      ∧ businesses st' !! 2 = Some (business_example 13 "E")
      ∧ reviews st' = reviews store_example.
Proof.
  split.
  - apply (proj1 (edit_business_replaces decimal_int store_example 9
                    (business_example 13 "E"))). reflexivity.
  - destruct (proj2 (edit_business_replaces decimal_int store_example 2
                       (business_example 13 "E"))
                (mk_is_Some _ _ eq_refl) ltac:(solve_fits) 97330 eq_refl)
      as (d & st' & Hedit & _ & Hrow & _ & Hrev & _).
    by exists d, st'.
Defined.

(** X22: PUT /businesses/{id} on an existing business, with the six
    members, such as the columns hold, and a zip_code on which [int]
    raises, commits the new row and
    then raises: the client is answered 500 and the business has the
    submitted members. *)
Theorem edit_business_unreadable_zip py_int st id row :
  is_Some (businesses st !! id) →
  business_fits row →
  py_int (zip_code row) = None →
  ∃ st',
    edit_business py_int id (Json (business_body row)) st = (Raised ValueError, st')
    ∧ businesses st' !! id = Some row
    ∧ (∀ id', id' ≠ id → businesses st' !! id' = businesses st !! id').
Proof.
  intros [old Hold] Hfits Hzip.
  rewrite (edit_business_eq _ _ _ _ _ (business_parameters_body row)), Hold.
  rewrite (business_columns_fits _ Hfits).
  unfold row_to_business_dict. simpl. rewrite Hzip.
  eexists. split; [reflexivity|]. simpl.
  split; [by rewrite lookup_alter_eq, Hold|].
  intros id' Hne. by rewrite lookup_alter_ne.
Qed.

Lemma edit_business_unreadable_zip_witness :
  ∃ st',
    edit_business decimal_int 2
      (Json (business_body {| owner_id := 1; name := "A"; street_address := "S";
                              city := "C"; state := "OR"; zip_code := "" |}))
      store_example
    = (Raised ValueError, st')
    ∧ name <$> businesses st' !! 2 = Some "A".
Proof.
  destruct (edit_business_unreadable_zip decimal_int store_example 2
              {| owner_id := 1; name := "A"; street_address := "S";
                 city := "C"; state := "OR"; zip_code := "" |}
              (mk_is_Some _ _ eq_refl) ltac:(solve_fits) eq_refl)
    as (st' & Hedit & Hrow & _).
  exists st'. split; [exact Hedit|]. by rewrite Hrow.
Defined.


(** A row with a member that its column does not hold is rejected. *)
Lemma business_columns_out_of_range row :
  ¬ fits_INT (owner_id row) ∨ (5 < String.length (rstrip (zip_code row)))%nat →
  ∃ orig, business_columns row = inl (DataError orig).
Proof.
  intros Hout.
  destruct (business_columns row) as [e|row'] eqn:Hcol.
  - apply business_columns_inl in Hcol as [orig ->]. by exists orig.
  - exfalso. revert Hcol. unfold business_columns, INT, CHAR.
    case_bool_decide as Hint; [|done].
    destruct (VARCHAR 50 _ _); [done|].
    destruct (VARCHAR 100 _ _); [done|].
    destruct (VARCHAR 50 _ _); [done|].
    destruct (Nat.leb _ 2); [|done].
    destruct (Nat.leb _ 5) eqn:Hzip; [|done].
    apply Nat.leb_le in Hzip. destruct Hout as [Hout|Hout]; [done|lia].
Qed.

(** X24: a member that its column does not hold makes the statement fail
    before anything is written.  With the six members and an owner_id
    outside 32 bits, or a zip_code of more than five characters once the
    spaces at its end are cut, POST /businesses is answered 500 with the
    body of its except clause, and PUT /businesses/{id} on an existing
    business raises DataError, which the client sees as 500.  The store
    is as before. *)
Theorem business_out_of_range py_int st id row :
  ¬ fits_INT (owner_id row) ∨ (5 < String.length (rstrip (zip_code row)))%nat →
  post_business py_int (Json (business_body row)) st
  = (Response (Error "Unable to create business") 500, st)
  ∧ (is_Some (businesses st !! id) →
     ∃ orig,
       edit_business py_int id (Json (business_body row)) st
       = (Raised (DataError orig), st)
       ∧ status_of (edit_business py_int id (Json (business_body row)) st).1 = 500).
Proof.
  intros [orig Hcol]%business_columns_out_of_range.
  split.
  - by rewrite (post_business_eq _ _ _ _ (business_parameters_body row)), Hcol.
  - intros [old Hold]. exists orig.
    by rewrite (edit_business_eq _ _ _ _ _ (business_parameters_body row)), Hold, Hcol.
Qed.

Lemma business_out_of_range_witness :
  let row := {| owner_id := 1; name := "A"; street_address := "S";
                city := "C"; state := "OR"; zip_code := "97330-1234" |} in
  post_business decimal_int (Json (business_body row)) store_example
  = (Response (Error "Unable to create business") 500, store_example)
  ∧ edit_business decimal_int 2 (Json (business_body row)) store_example
    = (Raised (DataError (ER_DATA_TOO_LONG "zip_code")), store_example).
Proof.
  cbn zeta.
  split.
  - apply (business_out_of_range decimal_int store_example 2
             {| owner_id := 1; name := "A"; street_address := "S";
                city := "C"; state := "OR"; zip_code := "97330-1234" |}).
    right. simpl. lia.
  - reflexivity.
Defined.
(** ** Listings *)

Lemma comprehension_Forall2 {A B : Type} (f : A → exn + B) rows bs :
  comprehension f rows = inr bs ↔ Forall2 (λ r b, f r = inr b) rows bs.
Proof.
  revert bs. induction rows as [|r rows IH]; intros bs; simpl.
  - split; [intros [= <-]; constructor | by inversion 1].
  - destruct (f r) as [e|b] eqn:Hr.
    + split; [done|]. inversion 1; congruence.
    + destruct (comprehension f rows) as [e|bs'] eqn:Hc.
      * split; [done|]. inversion 1 as [|? b' ? bs'' _ Hrest]; subst.
        apply IH in Hrest. congruence.
      * split.
        -- intros [= <-]. constructor; [done|]. by apply IH.
        -- inversion 1 as [|? b' ? bs'' Hb Hrest]; subst.
           apply IH in Hrest. congruence.
Qed.

Lemma comprehension_total {A B : Type} (f : A → exn + B) rows :
  Forall (λ r, ∃ b, f r = inr b) rows → ∃ bs, comprehension f rows = inr bs.
Proof.
  induction 1 as [|r rows [b Hb] _ [bs Hbs]]; simpl; [by eexists|].
  rewrite Hb, Hbs. by eexists.
Qed.

Lemma Forall2_elem_of_r {A B : Type} (R : A → B → Prop) xs ys y :
  Forall2 R xs ys → y ∈ ys → ∃ x, x ∈ xs ∧ R x y.
Proof.
  induction 1 as [|x y' xs ys Hxy _ IH]; [by intros ?%elem_of_nil|].
  intros [->|Hin]%elem_of_cons.
  - exists x. split; [by left|done].
  - destruct (IH Hin) as (x' & ? & ?). exists x'. split; [by right|done].
Qed.

Lemma Forall2_elem_of_l {A B : Type} (R : A → B → Prop) xs ys x :
  Forall2 R xs ys → x ∈ xs → ∃ y, y ∈ ys ∧ R x y.
Proof.
  induction 1 as [|x' y xs ys Hxy _ IH]; [by intros ?%elem_of_nil|].
  intros [->|Hin]%elem_of_cons.
  - exists y. split; [by left|done].
  - destruct (IH Hin) as (y' & ? & ?). exists y'. split; [by right|done].
Qed.

Lemma StronglySorted_filter {A : Type} (R : relation A) (P : A → Prop)
    `{∀ x, Decision (P x)} (l : list A) :
  StronglySorted R l → StronglySorted R (filter P l).
Proof.
  induction 1 as [|x l _ IH Hall]; [constructor|].
  rewrite filter_cons. case_decide; [|done].
  constructor; [done|].
  apply Forall_forall. intros y [_ Hy]%list_elem_of_filter.
  rewrite Forall_forall in Hall. auto.
Qed.

Lemma row_to_business_dict_inr py_int row d :
  row_to_business_dict py_int row = inr d →
  bd_id d = row.1 ∧ bd_owner_id d = owner_id row.2.
Proof.
  unfold row_to_business_dict. destruct (py_int _); [|done]. by intros [= <-].
Qed.

(** X7: GET /owners/{owner}/businesses, when [int] reads the zip_code of
    every business of the owner, is answered 200 with a bare array that
    holds the representation of each business whose owner_id is the owner
    and of no other, by strictly ascending id, and writes nothing. *)
Theorem list_businesses_for_owner_complete py_int owner st :
  (∀ id row, businesses st !! id = Some row → owner_id row = owner →
     is_Some (py_int (zip_code row))) →
  ∃ ds,
    list_businesses_for_owner py_int owner st = (Response (Businesses ds) 200, st)
    ∧ (∀ d, d ∈ ds ↔
         ∃ row, businesses st !! bd_id d = Some row ∧ owner_id row = owner
                ∧ row_to_business_dict py_int (bd_id d, row) = inr d)
    ∧ StronglySorted Z.lt (bd_id <$> ds).
Proof.
  intros Hzip. rewrite list_businesses_for_owner_eq.
  destruct (comprehension_total (row_to_business_dict py_int)
              (select_businesses_of_owner owner st)) as [ds Hds].
  { apply Forall_forall. intros [id row] [Howner Hin]%list_elem_of_filter.
    apply elem_of_order_by_key in Hin. simpl in Howner.
    destruct (Hzip id row Hin Howner) as [zip Hz].
    unfold row_to_business_dict. simpl. rewrite Hz. by eexists. }
  rewrite Hds. exists ds. split; [done|].
  apply comprehension_Forall2 in Hds. split.
  - intros d. split.
    + intros Hd. destruct (Forall2_elem_of_r _ _ _ _ Hds Hd) as ([id row] & Hin & Hr).
      apply list_elem_of_filter in Hin as [Howner Hin].
      apply elem_of_order_by_key in Hin.
      destruct (row_to_business_dict_inr _ _ _ Hr) as [Hid _]. simpl in *.
      exists row. rewrite Hid. done.
    + intros (row & Hrow & Howner & Hr).
      assert ((bd_id d, row) ∈ select_businesses_of_owner owner st) as Hin.
      { apply list_elem_of_filter. split; [done|]. by apply elem_of_order_by_key. }
      destruct (Forall2_elem_of_l _ _ _ _ Hds Hin) as (d' & Hd' & Hr').
      congruence.
  - assert (bd_id <$> ds = (select_businesses_of_owner owner st).*1) as ->.
    { induction Hds as [|r d rows ds' Hr _ IH]; [done|].
      rewrite !fmap_cons, IH. f_equal.
      by destruct (row_to_business_dict_inr _ _ _ Hr). }
    apply (StronglySorted_fmap _ key_lt); [done|].
    apply StronglySorted_filter, order_by_key_ascending.
Qed.

Lemma list_businesses_for_owner_complete_witness :
  ∃ ds,
    list_businesses_for_owner decimal_int 10 store_example
    = (Response (Businesses ds) 200, store_example)
    ∧ bd_id <$> ds = [1; 2].
Proof.
  destruct (list_businesses_for_owner_complete decimal_int 10 store_example)
    as (ds & Hlist & _ & _).
  { intros id row Hrow _.
    assert (zip_code row = "97330") as ->; [|by eexists].
    destruct (decide (id = 1)) as [->|?]; [by inversion Hrow|].
    destruct (decide (id = 2)) as [->|?]; [by inversion Hrow|].
    destruct (decide (id = 3)) as [->|?]; [by inversion Hrow|].
    destruct (decide (id = 4)) as [->|?]; [by inversion Hrow|].
    unfold store_example in Hrow. simpl in Hrow.
    rewrite !lookup_insert_ne in Hrow by done. done. }
  exists ds. split; [exact Hlist|].
  assert (list_businesses_for_owner decimal_int 10 store_example
          = (Response (Businesses
               [ {| bd_id := 1; bd_owner_id := 10; bd_name := "A";
                    bd_street_address := "1 Main St"; bd_city := "Corvallis";
                    bd_state := "OR"; bd_zip_code := 97330;
                    bd_self := url_for_get_business_by_id 1 |};
                 {| bd_id := 2; bd_owner_id := 10; bd_name := "B";
                    bd_street_address := "1 Main St"; bd_city := "Corvallis";
                    bd_state := "OR"; bd_zip_code := 97330;
                    bd_self := url_for_get_business_by_id 2 |} ]) 200,
             store_example)) as Hval by (vm_compute; reflexivity).
  rewrite Hval in Hlist. by injection Hlist as <-.
Defined.

(** X8: GET /users/{uid}/reviews is always answered 200 with a bare array
    that holds the representation of each review whose user_id is uid and
    of no other, by strictly ascending id, and writes nothing. *)
Theorem list_reviews_for_user_complete uid st :
  ∃ rs,
    list_reviews_for_user uid st = (Response (Reviews rs) 200, st)
    ∧ (∀ r, r ∈ rs ↔
         ∃ row, reviews st !! rd_id r = Some row ∧ user_id row = uid
                ∧ r = row_to_review_dict (rd_id r, row))
    ∧ StronglySorted Z.lt (rd_id <$> rs).
Proof.
  eexists. split; [reflexivity|]. split.
  - intros r. rewrite list_elem_of_fmap. split.
    + intros ([id row] & -> & [Hu Hin]%list_elem_of_filter).
      apply elem_of_order_by_key in Hin. simpl in *. by exists row.
    + intros (row & Hrow & Hu & Hr). exists (rd_id r, row). split; [done|].
      apply list_elem_of_filter. split; [done|]. by apply elem_of_order_by_key.
  - rewrite <- list_fmap_compose.
    apply (StronglySorted_fmap _ key_lt); [done|].
    apply StronglySorted_filter, order_by_key_ascending.
Qed.

(** ** Following the next links of GET /businesses *)

Lemma length_order_by_key {A : Type} (table : gmap Z A) :
  length (order_by_key table) = size table.
Proof. by rewrite order_by_key_permutation, length_map_to_list. Qed.

Lemma follow_next_page py_int fuel l o st entries next :
  get_businesses py_int (Some l) (Some o) st = (Response (Page entries next) 200, st) →
  follow_next py_int (S fuel) (GET_businesses (Some l) (Some o)) st =
  match next with
  | None => Some entries
  | Some next =>
      match follow_next py_int fuel (GET_url next) st with
      | Some rest => Some (entries ++ rest)%list
      | None => None
      end
  end.
Proof. intros Hpage. cbn [follow_next app]. by rewrite Hpage. Qed.

(** X9: when [int] reads every zip_code, a client that starts at
    GET /businesses?limit=l&offset=o with l at least 1 and follows the next
    links gets, page after page, the representations of all businesses
    from the o-th on in ascending id, each once, and reaches a page
    without a next link; from offset 0, or from a request without
    parameters, these are all the businesses. *)
Theorem follow_next_lists_all py_int st ds :
  comprehension (row_to_business_dict py_int) (order_by_key (businesses st)) = inr ds →
  (∀ fuel l o,
     1 ≤ l → (length ds - Z.to_nat (Z.max 0 o) < fuel)%nat →
     follow_next py_int fuel (GET_businesses (Some l) (Some o)) st
     = Some (drop (Z.to_nat (Z.max 0 o)) ds))
  ∧ (∀ fuel, (length ds < fuel)%nat →
     follow_next py_int fuel (GET_businesses None None) st = Some ds).
Proof.
  intros Hds.
  assert (∀ fuel l o,
     1 ≤ l → (length ds - Z.to_nat (Z.max 0 o) < fuel)%nat →
     follow_next py_int fuel (GET_businesses (Some l) (Some o)) st
     = Some (drop (Z.to_nat (Z.max 0 o)) ds)) as Hall.
  { apply comprehension_Forall2 in Hds.
    pose proof (Forall2_length _ _ _ Hds) as Hlen.
    induction fuel as [|fuel IH]; intros l o Hl Hfuel; [lia|].
    pose proof (get_businesses_page py_int l o st ltac:(lia)) as Hpage.
    cbn zeta in Hpage.
    set (n := Z.to_nat (Z.max 0 o)) in *.
    set (k := Z.to_nat l) in *.
    rewrite take_take in Hpage.
    replace (k `min` (k + 1))%nat with k in Hpage by lia.
    assert (comprehension (row_to_business_dict py_int)
              (take k (drop n (order_by_key (businesses st))))
            = inr (take k (drop n ds))) as Hc.
    { apply comprehension_Forall2. by apply Forall2_take, Forall2_drop. }
    rewrite Hc, length_take, length_drop, Hlen in Hpage.
    destruct Hpage as [Hpage _].
    rewrite (follow_next_page _ _ _ _ _ _ _ Hpage).
    case_bool_decide as Hmore.
    - cbn [GET_url]. rewrite IH; [|lia|].
      + replace (Z.to_nat (Z.max 0 (Z.max 0 o + l))) with (n + k)%nat by lia.
        rewrite <- drop_drop. by rewrite take_drop.
      + replace (Z.to_nat (Z.max 0 (Z.max 0 o + l))) with (n + k)%nat by lia. lia.
    - rewrite take_ge; [done|]. rewrite length_drop. lia. }
  split; [exact Hall|].
  intros fuel Hfuel. destruct fuel as [|fuel]; [lia|].
  specialize (Hall (S fuel) 3 0 ltac:(lia)). simpl in Hall.
  rewrite drop_0 in Hall. apply Hall. lia.
Qed.

Lemma follow_next_lists_all_witness :
  ∃ ds,
    follow_next decimal_int 5 (GET_businesses (Some 1) (Some 0)) store_example
    = Some ds
    ∧ bd_id <$> ds = [1; 2; 3; 4].
Proof.
  destruct (comprehension (row_to_business_dict decimal_int)
              (order_by_key (businesses store_example))) as [e|ds] eqn:Hds;
    [by vm_compute in Hds|].
  exists ds. split.
  - apply (proj1 (follow_next_lists_all decimal_int store_example ds Hds) 5%nat 1 0).
    + lia.
    + vm_compute in Hds. injection Hds as <-. simpl. lia.
  - vm_compute in Hds. by injection Hds as <-.
Defined.

(** X10: GET /businesses?limit=0 lists no entry and, as long as a business
    is left at the offset, answers with a next link to the same offset
    with limit=0: a client that follows it never reaches a last page. *)
Theorem get_businesses_limit_zero py_int st o :
  get_businesses py_int (Some 0) (Some o) st
  = (Response
       (Page []
          (if bool_decide (Z.to_nat (Z.max 0 o) < size (businesses st))%nat
           then Some (url_for_get_businesses (Z.max 0 o + 0) 0)
           else None)) 200, st)
  ∧ ((Z.to_nat (Z.max 0 o) < size (businesses st))%nat →
     ∀ fuel, follow_next py_int fuel (GET_businesses (Some 0) (Some o)) st = None).
Proof.
  assert (∀ o,
    get_businesses py_int (Some 0) (Some o) st
    = (Response
         (Page []
            (if bool_decide (Z.to_nat (Z.max 0 o) < size (businesses st))%nat
             then Some (url_for_get_businesses (Z.max 0 o + 0) 0)
             else None)) 200, st)) as Hpage.
  { intros o'. pose proof (get_businesses_page py_int 0 o' st ltac:(lia)) as Hpage.
    cbn zeta in Hpage. change (Z.to_nat 0) with 0%nat in Hpage.
    rewrite take_0 in Hpage. simpl comprehension in Hpage.
    destruct Hpage as [-> _]. repeat f_equal.
    rewrite length_take, length_drop, length_order_by_key.
    erewrite bool_decide_ext; [done|]. lia. }
  split; [apply Hpage|].
  intros Hleft fuel. revert o Hleft.
  induction fuel as [|fuel IH]; intros o Hleft; [done|].
  rewrite (follow_next_page _ _ _ _ _ _ _ (Hpage o)).
  rewrite bool_decide_eq_true_2 by done. cbn [GET_url].
  rewrite IH; [done|]. lia.
Qed.

Lemma get_businesses_limit_zero_witness :
  follow_next decimal_int 100 (GET_businesses (Some 0) (Some 3)) store_example = None.
Proof.
  apply (proj2 (get_businesses_limit_zero decimal_int store_example 3)).
  vm_compute. lia.
Defined.

(** ** Reviews *)

(** X11: DELETE /reviews/{r} of a review the store has is answered 204
    with an empty body; afterwards GET /reviews/{r} is answered 404, and
    every other review, every business and both counters are as
    before. *)
Theorem delete_review_frame st r :
  is_Some (reviews st !! r) →
  ∃ st',
    delete_review r st = (Response Empty 204, st')
    ∧ get_review_by_id r st' = (Response ERROR_REVIEW_NOT_FOUND 404, st')
    ∧ (∀ r', r' ≠ r → reviews st' !! r' = reviews st !! r')
    ∧ businesses st' = businesses st
    ∧ next_business_id st' = next_business_id st
    ∧ next_review_id st' = next_review_id st.
Proof.
  intros [row Hrow]. rewrite delete_review_eq, Hrow.
  eexists. split; [reflexivity|]. simpl. split.
  - rewrite get_review_by_id_eq. simpl. by rewrite lookup_delete_eq.
  - split; [|done]. intros r' Hne. by rewrite lookup_delete_ne.
Qed.

Lemma delete_review_frame_witness :
  ∃ st',
    delete_review 1 store_example = (Response Empty 204, st')
    ∧ get_review_by_id 1 st' = (Response ERROR_REVIEW_NOT_FOUND 404, st')
    ∧ reviews st' !! 2 = reviews store_example !! 2.
Proof.
  destruct (delete_review_frame store_example 1 (mk_is_Some _ _ eq_refl))
    as (st' & Hdel & Hget & Hother & _).
  exists st'. split; [exact Hdel|]. split; [exact Hget|]. by apply Hother.
Defined.

(** X12: DELETE /businesses/{b} of a business the store has leaves every
    other business, every review of another business and both counters as
    they were. *)
Theorem delete_business_frame st b :
  is_Some (businesses st !! b) →
  ∃ st',
    delete_business b st = (Response Empty 204, st')
    ∧ (∀ b', b' ≠ b → businesses st' !! b' = businesses st !! b')
    ∧ (∀ r row, reviews st !! r = Some row → business_id row ≠ b →
         reviews st' !! r = Some row)
    ∧ next_business_id st' = next_business_id st
    ∧ next_review_id st' = next_review_id st.
Proof.
  intros [row Hrow]. rewrite delete_business_eq, Hrow.
  eexists. split; [reflexivity|]. simpl. split.
  - intros b' Hne. by rewrite lookup_delete_ne.
  - split; [|done]. intros r row' Hr Hne. by apply map_lookup_filter_Some.
Qed.

Lemma delete_business_frame_witness :
  ∃ st',
    delete_business 2 store_example = (Response Empty 204, st')
    ∧ businesses st' !! 1 = businesses store_example !! 1
    ∧ reviews st' !! 1
      = Some {| user_id := 7; business_id := 1; stars := 3; review_text := "fine" |}.
Proof.
  destruct (delete_business_frame store_example 2 (mk_is_Some _ _ eq_refl))
    as (st' & Hdel & Hother & Hreviews & _).
  exists st'. split; [exact Hdel|]. split; [by apply Hother|].
  by apply Hreviews.
Defined.

(** X13: POST /reviews with the three members, where user_id and
    business_id are INT values and review_text, if the body has one, has
    at most 1000 characters, with an existing business,
    stars within 0..5 and a pair (user_id, business_id) that no review has
    is answered 201 with the representation of the new review: its id is
    the key AUTO_INCREMENT generates, its review_text is the submitted
    text, or the empty text when the body has none, and its business link
    is the URL of the business; GET on its self link is then answered 200
    with the same representation.  No business changes, and on a store
    that satisfies the constraints no other review changes. *)
Theorem post_reviews_creates st u b s t :
  is_Some (businesses st !! b) →
  fits_INT u → fits_INT b →
  (∀ text, t = Some text → fits_VARCHAR 1000 text) →
  0 ≤ s ≤ 5 →
  (∀ r row, reviews st !! r = Some row → ¬ (user_id row = u ∧ business_id row = b)) →
  ∃ d st',
    post_reviews (Json (review_body u b s t)) st = (Response (Review d) 201, st')
    ∧ d = {| rd_id := next_review_id st; rd_user_id := u;
             rd_business := url_for_get_business_by_id b; rd_stars := s;
             rd_review_text := default "" t;
             rd_self := url_for_get_review_by_id (next_review_id st) |}
    ∧ (∀ py_int, app py_int (GET_url (rd_self d)) st' = (Response (Review d) 200, st'))
    ∧ businesses st' = businesses st
    ∧ (wf_store st →
       reviews st !! rd_id d = None
       ∧ ∀ r row, reviews st !! r = Some row → reviews st' !! r = Some row).
Proof.
  intros [brow Hb] Hfu Hfb Ht Hs Hfree.
  assert (review_fits {| user_id := u; business_id := b; stars := s;
                         review_text := default "" t |}) as Hfits.
  { unfold review_fits. simpl.
    split; [done|]. split; [done|]. split; [unfold fits_INT; lia|].
    destruct t as [text|]; simpl; [by apply Ht|].
    unfold fits_VARCHAR. simpl. lia. }
  apply ck_stars_true in Hs.
  assert (uq_user_business u b (reviews st) = false) as Huq.
  { apply not_true_iff_false. intros (r & row & Hrow & Hu & Hbid)%uq_user_business_true.
    by apply (Hfree r row). }
  rewrite (post_reviews_fits _ _ _ _ _ _ Hb Hfits). cbn zeta.
  unfold insert_review_row. cbn [stars user_id business_id]. rewrite Hs, Huq, Hb. simpl.
  eexists _, _. split; [reflexivity|]. split; [done|]. split.
  - intros py_int. unfold row_to_review_dict at 1. cbn [GET_url rd_self app fst].
    rewrite get_review_by_id_eq. simpl.
    by rewrite lookup_insert_eq.
  - split; [done|]. intros Hwf. simpl.
    assert (reviews st !! next_review_id st = None) as Hfresh.
    { destruct (reviews st !! next_review_id st) eqn:Hl; [|done].
      pose proof (wf_review_keys st Hwf _ (mk_is_Some _ _ Hl)). lia. }
    split; [done|]. intros r row Hrow.
    rewrite lookup_insert_ne; [done|]. congruence.
Qed.

Lemma post_reviews_creates_witness :
  ∃ d st',
    post_reviews (Json (review_body 7 2 0 None)) store_example
    = (Response (Review d) 201, st')
    ∧ rd_id d = 3 ∧ rd_review_text d = ""
    ∧ get_review_by_id 3 st' = (Response (Review d) 200, st').
Proof.
  destruct (post_reviews_creates store_example 7 2 0 None (mk_is_Some _ _ eq_refl))
    as (d & st' & Hpost & -> & Hget & _).
  - unfold fits_INT. lia.
  - unfold fits_INT. lia.
  - done.
  - lia.
  - intros r row Hrow [Hu Hb].
    destruct (decide (r = 1)) as [->|?]; [by inversion Hrow; subst|].
    destruct (decide (r = 2)) as [->|?]; [by inversion Hrow; subst|].
    unfold store_example in Hrow. simpl in Hrow.
    rewrite !lookup_insert_ne in Hrow by done. done.
  - eexists _, st'. split; [exact Hpost|]. split; [done|]. split; [done|].
    apply (Hget decimal_int).
Defined.

(** X14: POST /reviews with the three members is answered 404 only when
    the store has no business with the submitted business_id, and 409 only
    when a review of that business by that user is in the store. *)
Theorem post_reviews_404_409_only_if st u b s t :
  (status_of (post_reviews (Json (review_body u b s t)) st).1 = 404 →
   businesses st !! b = None)
  ∧ (status_of (post_reviews (Json (review_body u b s t)) st).1 = 409 →
     ∃ r row, reviews st !! r = Some row ∧ user_id row = u ∧ business_id row = b).
Proof.
  unfold review_body. rewrite post_reviews_eq.
  destruct (businesses st !! b) as [brow|] eqn:Hb; [|by split].
  destruct (review_columns _) as [e|row] eqn:Hcol.
  { apply review_columns_inl in Hcol as [orig ->]. by split. }
  apply review_columns_inr in Hcol as (Hu & Hbid & _). simpl in Hu, Hbid.
  unfold insert_review_row. rewrite Hu, Hbid.
  destruct (ck_stars (stars row)); simpl; [|by split].
  destruct (uq_user_business u b (reviews st)) eqn:Huq.
  - split; [by rewrite duplicate_entry_classified|].
    intros _. by apply uq_user_business_true.
  - rewrite Hb. simpl. by split.
Qed.

Lemma post_reviews_404_409_only_if_witness :
  businesses store_example !! 77 = None
  ∧ ∃ r row, reviews store_example !! r = Some row
             ∧ user_id row = 8 ∧ business_id row = 1.
Proof.
  split.
  - apply (proj1 (post_reviews_404_409_only_if store_example 9 77 4 None)).
    reflexivity.
  - apply (proj2 (post_reviews_404_409_only_if store_example 8 1 4 None)).
    reflexivity.
Defined.

(** X15: PUT /reviews/{r} with stars in the body, on a review the store
    does not have, is answered 404 whatever the stars are, also outside
    0..5, and writes nothing. *)
Theorem edit_review_unknown_review st r content s :
  j_stars content = Some s →
  reviews st !! r = None →
  edit_review r (Json content) st = (Response ERROR_REVIEW_NOT_FOUND 404, st).
Proof. intros Hs Hr. by rewrite (edit_review_eq _ _ _ _ Hs), Hr. Qed.

Lemma edit_review_unknown_review_witness :
  edit_review 99 (Json (stars_body 9)) store_example
  = (Response ERROR_REVIEW_NOT_FOUND 404, store_example).
Proof.
  apply (edit_review_unknown_review store_example 99 (stars_body 9) 9); reflexivity.
Defined.

(** ** All requests *)

(** X16: in every store the application reaches from the empty tables,
    whatever the requests were, each review has stars within 0..5 and
    refers to a business of the store, no two reviews have the same
    (user_id, business_id), and every key is below the counter of its
    table. *)
Theorem reachable_store_constraints py_int reqs :
  let st := (serve py_int reqs empty_store).2 in
  (∀ r row, reviews st !! r = Some row →
     0 ≤ stars row ≤ 5 ∧ is_Some (businesses st !! business_id row))
  ∧ (∀ r1 r2 row1 row2,
       reviews st !! r1 = Some row1 → reviews st !! r2 = Some row2 →
       user_id row1 = user_id row2 → business_id row1 = business_id row2 →
       r1 = r2)
  ∧ (∀ b, is_Some (businesses st !! b) → b < next_business_id st)
  ∧ (∀ r, is_Some (reviews st !! r) → r < next_review_id st).
Proof.
  cbn zeta.
  destruct (serve_wf py_int reqs empty_store (wf_create_tables None ltac:(done)))
    as [Hck Hfk Huq Hbk Hrk].
  split; [|by auto].
  intros r row Hrow. split; [|by eauto]. apply ck_stars_true. eauto.
Qed.

Lemma reachable_store_constraints_witness :
  let st := (serve decimal_int requests_example empty_store).2 in
  let row := {| user_id := 8; business_id := 1; stars := 5; review_text := "" |} in
  reviews st !! 2 = Some row
  ∧ 0 ≤ stars row ≤ 5
  ∧ is_Some (businesses st !! business_id row).
Proof.
  cbn zeta. split; [by vm_compute|].
  apply (proj1 (reachable_store_constraints decimal_int requests_example) 2).
  by vm_compute.
Defined.

(** X17: no GET request writes: whatever it is answered, the store after
    it is the store before it. *)
Theorem reads_never_write py_int req st :
  is_read req = true → (app py_int req st).2 = st.
Proof.
  intros Hread.
  destruct req as [|b|l o|id|owner|id b|id|b|id|uid|id b|id]; try done; simpl.
  - unfold get_businesses.
    destruct (match l with Some _ => _ | None => _ end) as [l' o'].
    unfold with_connect, query. simpl. by destruct (comprehension _ _).
  - rewrite get_business_by_id_eq.
    destruct (businesses st !! id); [|done]. by destruct (row_to_business_dict _ _).
  - rewrite list_businesses_for_owner_eq. by destruct (comprehension _ _).
  - rewrite get_review_by_id_eq. by destruct (reviews st !! id).
Qed.

Lemma reads_never_write_witness :
  (app decimal_int (GET_business 77) store_example).2 = store_example.
Proof. apply (reads_never_write decimal_int (GET_business 77)). reflexivity. Defined.

Lemma status_in_STATUSES (status : Z) :
  status = 200 ∨ status = 201 ∨ status = 204 ∨ status = 400
  ∨ status = 404 ∨ status = 409 ∨ status = 415 ∨ status = 500 →
  status ∈ STATUSES.
Proof. unfold STATUSES. rewrite !elem_of_cons. tauto. Qed.

Lemma post_reviews_except_status e :
  status_of (post_reviews_except e) = 400
  ∨ status_of (post_reviews_except e) = 409
  ∨ status_of (post_reviews_except e) = 500.
Proof.
  unfold post_reviews_except. destruct e; simpl; auto.
  destruct (_ || _); simpl; auto.
Qed.

(** X18: every request is answered with one of the statuses 200, 201,
    204, 400, 404, 409, 415 and 500, an exception that leaves a handler
    counted with the status Flask gives it: 415 and 400 for the two
    exceptions of [get_json], 500 for any other. *)
Theorem app_statuses py_int req st :
  status_of (app py_int req st).1 ∈ STATUSES.
Proof.
  apply status_in_STATUSES.
  destruct req as [|b|l o|id|owner|id b|id|b|id|uid|id b|id]; simpl.
  - auto.
  - destruct b as [| |content]; [simpl; auto 12|simpl; auto 12|].
    destruct (truthy (has_required_fields content REQUIRED_BUSINESS_FIELDS)) eqn:Hm.
    + unfold post_business, get_json. cbv beta iota. rewrite Hm. simpl. auto 12.
    + apply business_parameters_complete in Hm as [row Hrow].
      rewrite (post_business_eq _ _ _ _ Hrow).
      destruct (business_columns row) as [e|row']; [simpl; auto 12|].
      destruct (row_to_business_dict _ _) eqn:Hd; simpl; [|auto 12].
      apply row_to_business_dict_raises in Hd as ->. simpl. auto 12.
  - unfold get_businesses.
    destruct (match l with Some _ => _ | None => _ end) as [l' o'].
    unfold with_connect, query. simpl.
    destruct (comprehension _ _) eqn:Hc; simpl; [|auto 12].
    apply comprehension_raises in Hc as ->. simpl. auto 12.
  - rewrite get_business_by_id_eq.
    destruct (businesses st !! id); [|simpl; auto 12].
    destruct (row_to_business_dict _ _) eqn:Hd; simpl; [|auto 12].
    apply row_to_business_dict_raises in Hd as ->. simpl. auto 12.
  - rewrite list_businesses_for_owner_eq.
    destruct (comprehension _ _) eqn:Hc; simpl; [|auto 12].
    apply comprehension_raises in Hc as ->. simpl. auto 12.
  - destruct b as [| |content]; [simpl; auto 12|simpl; auto 12|].
    destruct (truthy (has_required_fields content REQUIRED_BUSINESS_FIELDS)) eqn:Hm.
    + unfold edit_business, get_json. cbv beta iota. rewrite Hm. simpl. auto 12.
    + apply business_parameters_complete in Hm as [row Hrow].
      rewrite (edit_business_eq _ _ _ _ _ Hrow).
      destruct (businesses st !! id); [|simpl; auto 12].
      destruct (business_columns row) as [e|row'] eqn:Hcol.
      { apply business_columns_inl in Hcol as [orig ->]. simpl. auto 12. }
      destruct (row_to_business_dict _ _) eqn:Hd; simpl; [|auto 12].
      apply row_to_business_dict_raises in Hd as ->. simpl. auto 12.
  - rewrite delete_business_eq. destruct (businesses st !! id); simpl; auto 12.
  - destruct b as [| |content]; [simpl; auto 12|simpl; auto 12|].
    destruct content as [[u|] [bid|] [s|] t]; try (simpl; auto 12).
    rewrite post_reviews_eq. destruct (businesses st !! bid); [|simpl; auto 12].
    destruct (review_columns _) as [e|row].
    { cbn [fst]. destruct (post_reviews_except_status e) as [->|[->| ->]]; auto 12. }
    destruct (insert_review_row _ st) as [e|[st' n]]; [|simpl; auto 12].
    cbn [fst]. destruct (post_reviews_except_status e) as [->|[->| ->]]; auto 12.
  - rewrite get_review_by_id_eq. destruct (reviews st !! id); simpl; auto 12.
  - simpl. auto 12.
  - destruct b as [| |content]; [simpl; auto 12|simpl; auto 12|].
    destruct (j_stars content) as [s|] eqn:Hs.
    + rewrite (edit_review_eq _ _ _ _ Hs).
      destruct (reviews st !! id); [|simpl; auto 12].
      destruct (review_update_columns _ _) as [e|[s' t']] eqn:Hcol.
      { apply review_update_columns_inl in Hcol as [orig ->]. simpl. auto 12. }
      destruct (ck_stars s'); simpl; auto 12.
    + unfold edit_review. simpl.
      unfold has_key, review_json_object. simpl. rewrite Hs. simpl. auto 12.
  - rewrite delete_review_eq. destruct (reviews st !! id); simpl; auto 12.
Qed.

(** X19: on a store that satisfies the constraints, the links of a review
    that GET /reviews/{r} returns lead somewhere: GET on its self link is
    answered with the same review, and GET on its business link is never
    answered 404. *)
Theorem review_links_resolve py_int st r d :
  wf_store st →
  (get_review_by_id r st).1 = Response (Review d) 200 →
  app py_int (GET_url (rd_self d)) st = (Response (Review d) 200, st)
  ∧ status_of (app py_int (GET_url (rd_business d)) st).1 ≠ 404.
Proof.
  intros Hwf. rewrite get_review_by_id_eq.
  destruct (reviews st !! r) as [row|] eqn:Hrow; [|done].
  simpl. intros [= <-]. unfold row_to_review_dict. cbn [GET_url rd_self rd_business app fst snd].
  split.
  - by rewrite get_review_by_id_eq, Hrow.
  - rewrite get_business_by_id_eq.
    destruct (wf_fk_reviews_business st Hwf r row Hrow) as [brow ->].
    destruct (row_to_business_dict _ _) eqn:Hd; [|done].
    by apply row_to_business_dict_raises in Hd as ->.
Qed.

Lemma review_links_resolve_witness :
  ∃ d,
    (get_review_by_id 2 store_example).1 = Response (Review d) 200
    ∧ rd_business d = url_for_get_business_by_id 1
    ∧ status_of (app decimal_int (GET_url (rd_business d)) store_example).1 ≠ 404.
Proof.
  eexists. split; [reflexivity|]. split; [reflexivity|].
  apply (review_links_resolve decimal_int store_example 2 _ wf_store_example eq_refl).
Defined.

(** ** Keys are not handed out twice *)

Lemma store_step_business_gone st st' id :
  store_step st st' → business_gone id st → business_gone id st'.
Proof.
  intros Hstep [Hnone Hlt].
  destruct Hstep as [|row|id' row Hid|id'|row _ _ _|id' old s t _ _|id'];
    split; simpl; try done.
  - rewrite lookup_insert_ne; [done|lia].
  - lia.
  - rewrite lookup_alter. case_decide; [subst; by rewrite Hnone|done].
  - rewrite lookup_delete. by case_decide.
Qed.

Lemma store_step_review_gone st st' id :
  store_step st st' → review_gone id st → review_gone id st'.
Proof.
  intros Hstep [Hnone Hlt].
  destruct Hstep as [|row|id' row Hid|id'|row _ _ _|id' old s t Hold _|id'];
    split; simpl; try done.
  - apply map_lookup_filter_None. by left.
  - rewrite lookup_insert_ne; [done|lia].
  - lia.
  - rewrite lookup_insert_ne; [done|congruence].
  - rewrite lookup_delete. by case_decide.
Qed.

Lemma no_delete_of_gone_business py_int reqs st id :
  business_gone id st →
  count_2xx (deletes_business id) reqs (serve py_int reqs st).1 = 0%nat.
Proof.
  revert st. induction reqs as [|req reqs IH]; intros st Hgone; [done|].
  rewrite serve_cons. simpl.
  rewrite IH by (eapply store_step_business_gone; [apply app_store_step|done]).
  destruct req; simpl; try done.
  case_bool_decide as Hid; [subst|done].
  destruct Hgone as [Hnone _]. by rewrite delete_business_eq, Hnone.
Qed.

Lemma no_delete_of_gone_review py_int reqs st id :
  review_gone id st →
  count_2xx (deletes_review id) reqs (serve py_int reqs st).1 = 0%nat.
Proof.
  revert st. induction reqs as [|req reqs IH]; intros st Hgone; [done|].
  rewrite serve_cons. simpl.
  rewrite IH by (eapply store_step_review_gone; [apply app_store_step|done]).
  destruct req; simpl; try done.
  case_bool_decide as Hid; [subst|done].
  destruct Hgone as [Hnone _]. by rewrite delete_review_eq, Hnone.
Qed.

(** X20: on a store that satisfies the constraints, in any sequence of
    requests, creations included, at most one DELETE of a given business
    and at most one DELETE of a given review is answered 2xx: the keys
    come from AUTO_INCREMENT, which hands out no key twice, so that what
    was deleted does not come back. *)
Theorem delete_at_most_once_ever py_int reqs st id :
  wf_store st →
  (count_2xx (deletes_business id) reqs (serve py_int reqs st).1 ≤ 1)%nat
  ∧ (count_2xx (deletes_review id) reqs (serve py_int reqs st).1 ≤ 1)%nat.
Proof.
  revert st. induction reqs as [|req reqs IH]; intros st Hwf; [simpl; lia|].
  rewrite serve_cons. simpl.
  destruct (IH (app py_int req st).2 (app_wf py_int req st Hwf)) as [IHb IHr].
  split.
  - destruct (deletes_business id req && is_2xx (app py_int req st).1) eqn:Hd;
      [|simpl; lia].
    apply andb_true_iff in Hd as [Hd H2xx].
    destruct req; simpl in Hd; try done.
    apply bool_decide_eq_true in Hd as ->.
    rewrite (no_delete_of_gone_business py_int reqs _ id); [lia|].
    simpl in *. rewrite delete_business_eq in *.
    destruct (businesses st !! id) eqn:Hid; [|done]. split; simpl.
    + apply lookup_delete_eq.
    + apply (wf_business_keys st Hwf). by rewrite Hid.
  - destruct (deletes_review id req && is_2xx (app py_int req st).1) eqn:Hd;
      [|simpl; lia].
    apply andb_true_iff in Hd as [Hd H2xx].
    destruct req; simpl in Hd; try done.
    apply bool_decide_eq_true in Hd as ->.
    rewrite (no_delete_of_gone_review py_int reqs _ id); [lia|].
    simpl in *. rewrite delete_review_eq in *.
    destruct (reviews st !! id) eqn:Hid; [|done]. split; simpl.
    + apply lookup_delete_eq.
    + apply (wf_review_keys st Hwf). by rewrite Hid.
Qed.

Lemma delete_at_most_once_ever_witness :
  (count_2xx (deletes_review 2)
     [DELETE_review 2; POST_reviews (Json (review_body 8 1 4 None)); DELETE_review 2]
     (serve decimal_int
        [DELETE_review 2; POST_reviews (Json (review_body 8 1 4 None)); DELETE_review 2]
        store_example).1 ≤ 1)%nat.
Proof.
  apply (proj2 (delete_at_most_once_ever decimal_int
                  [DELETE_review 2; POST_reviews (Json (review_body 8 1 4 None));
                   DELETE_review 2]
                  store_example 2 wf_store_example)).
Defined.

(** ** The [in] test of the except clause *)

Lemma starts_with_spec needle hay :
  starts_with needle hay = true ↔ ∃ rest, hay = needle +:+ rest.
Proof.
  revert hay. induction needle as [|a needle IH]; intros hay; simpl.
  - split; [by exists hay|done].
  - destruct hay as [|b hay]; simpl.
    + split; [done|]. by intros [rest ?].
    + rewrite andb_true_iff, Ascii.eqb_eq, IH. split.
      * intros [-> [rest ->]]. by exists rest.
      * intros [rest [= -> ->]]. split; [done|]. by exists rest.
Qed.

Lemma str_in_spec needle hay :
  str_in needle hay = true ↔ ∃ before rest, hay = before +:+ needle +:+ rest.
Proof.
  induction hay as [|b hay IH].
  - simpl. rewrite orb_false_r, starts_with_spec. split.
    + intros [rest ->]. by exists "", rest.
    + intros (before & rest & Heq). destruct before; [by exists rest|done].
  - cbn [str_in]. rewrite orb_true_iff, starts_with_spec, IH. split.
    + intros [[rest ->]|(before & rest & ->)].
      * by exists "", rest.
      * by exists (String b before), rest.
    + intros ([|c before] & rest & Heq).
      * left. by exists rest.
      * right. injection Heq as -> ->. by exists before, rest.
Qed.

(** X21: the except clauses of [post_reviews] answer an IntegrityError
    with 409 exactly when its message, in lower case, contains
    uq_user_business, duplicate or unique, and with 400 and the
    invalid-data message otherwise; any other exception is answered
    500. *)
Theorem post_reviews_except_classifies e :
  match e with
  | IntegrityError orig =>
      ((∃ mark before rest,
          mark ∈ DUPLICATE_MARKS ∧ lower orig = before +:+ mark +:+ rest) →
       post_reviews_except e = bad_request ALREADY_REVIEWED 409)
      ∧ (¬ (∃ mark before rest,
              mark ∈ DUPLICATE_MARKS ∧ lower orig = before +:+ mark +:+ rest) →
         post_reviews_except e = bad_request "Invalid review data" 400)
  | _ => post_reviews_except e = Response (Error "Unable to create review") 500
  end.
Proof.
  destruct e as [| | | | | | |orig| |]; try done.
  unfold post_reviews_except.
  destruct (str_in "uq_user_business" (lower orig)) eqn:H1;
    [|destruct (str_in "duplicate" (lower orig)) eqn:H2;
      [|destruct (str_in "unique" (lower orig)) eqn:H3]]; cbn [orb].
  - split; [done|]. intros Hnot. exfalso. apply Hnot.
    apply str_in_spec in H1 as (before & rest & ?).
    exists "uq_user_business", before, rest. split; [|done].
    unfold DUPLICATE_MARKS. rewrite !elem_of_cons. tauto.
  - split; [done|]. intros Hnot. exfalso. apply Hnot.
    apply str_in_spec in H2 as (before & rest & ?).
    exists "duplicate", before, rest. split; [|done].
    unfold DUPLICATE_MARKS. rewrite !elem_of_cons. tauto.
  - split; [done|]. intros Hnot. exfalso. apply Hnot.
    apply str_in_spec in H3 as (before & rest & ?).
    exists "unique", before, rest. split; [|done].
    unfold DUPLICATE_MARKS. rewrite !elem_of_cons. tauto.
  - split; [|done]. intros (mark & before & rest & Hmark & Heq).
    unfold DUPLICATE_MARKS in Hmark. rewrite !elem_of_cons, elem_of_nil in Hmark.
    assert (str_in mark (lower orig) = true) as Hin
      by (apply str_in_spec; by exists before, rest).
    destruct Hmark as [->|[->|[->|[]]]]; congruence.
Qed.

Lemma post_reviews_except_classifies_witness :
  post_reviews_except (IntegrityError "Violation of UNIQUE KEY constraint")
  = bad_request ALREADY_REVIEWED 409
  ∧ post_reviews_except (IntegrityError ER_NO_REFERENCED_ROW_2)
    = bad_request "Invalid review data" 400.
Proof.
  split.
  - apply (proj1 (post_reviews_except_classifies
                    (IntegrityError "Violation of UNIQUE KEY constraint"))).
    exists "unique", "violation of ", " key constraint". split; [|reflexivity].
    unfold DUPLICATE_MARKS. rewrite !elem_of_cons. tauto.
  - apply (proj2 (post_reviews_except_classifies
                    (IntegrityError ER_NO_REFERENCED_ROW_2))).
    intros (mark & before & rest & Hmark & Heq).
    assert (str_in mark (lower ER_NO_REFERENCED_ROW_2) = true) as Hin
      by (apply str_in_spec; by exists before, rest).
    unfold DUPLICATE_MARKS in Hmark. rewrite !elem_of_cons, elem_of_nil in Hmark.
    destruct Hmark as [->|[->|[->|[]]]]; by vm_compute in Hin.
Defined.

